(** * skillic: persisted entity registries (User, Outcome, Course, Session)

    A shallow embedding of the TypeScript canister sources

      - User/user.ts        (usersStorage and its operations),
      - Outcome/outcome.ts  (outcomesStorage and its operations),
      - Course/course.ts    (coursesStorage and its operations),
      - session/session.ts  (declarations only),

    followed by the properties of the registries.

    Conventions of the embedding.
    - A JavaScript string is the list of its UTF-16 code units ([str]).
    - A [StableBTreeMap<string, V>] is a [gmap str V]; every [const ...Storage]
      of the sources is one field of [Store], and every operation takes the
      store and returns the store it leaves behind.
    - The two things an operation reads from its environment are arguments:
      [uuid] is the string [uuidv4()] returns, [time] the nanosecond counter
      [ic.time()] returns.
    - A return type [T | string] is [result T]: [Ret] carries the entity,
      [Err] the message. *)

From Stdlib Require Import NArith String Ascii.
From stdpp Require Import gmap list fin_maps.

Local Open Scope N_scope.

(** ** Strings *)

Module Js.

(** UTF-16 code units. *)
Definition str : Type := list N.

(** A literal of the sources (all of them are ASCII). *)
Definition lit (s : string) : str :=
  map N_of_ascii (list_ascii_of_string s).

(** ECMAScript WhiteSpace and LineTerminator code points, the characters
    [String.prototype.trim] strips. *)
Definition isWhiteSpace (c : N) : bool :=
  (9 <=? c) && (c <=? 13)
  || (c =? 32) || (c =? 160) || (c =? 5760)
  || (8192 <=? c) && (c <=? 8202)
  || (c =? 8232) || (c =? 8233) || (c =? 8239) || (c =? 8287)
  || (c =? 12288) || (c =? 65279).

Fixpoint trimStart (s : str) : str :=
  match s with
  | c :: s' => if isWhiteSpace c then trimStart s' else s
  | [] => []
  end.

Definition trimEnd (s : str) : str := rev (trimStart (rev s)).

Definition trim (s : str) : str := trimEnd (trimStart s).

(** [s.length] *)
Definition length (s : str) : N := N.of_nat (List.length s).

(** [a === b] on strings *)
Definition eqb (a b : str) : bool := bool_decide (a = b).

(** [`${o}`] for an object [o] without a [toString] of its own. *)
Definition objectObject : str := lit "[object Object]".

(** The escape [\n] of a template literal. *)
Definition nl : str := [10].

End Js.

Abbreviation str := Js.str.

(** ** Results and dates *)

Inductive result (T : Type) : Type :=
| Ret (v : T)
| Err (message : str).
Arguments Ret {T} v.
Arguments Err {T} message.

Definition isErr {T} (r : result T) : bool :=
  match r with Err _ => true | Ret _ => false end.

(** A [Date] is its time value, in milliseconds. *)
Definition Date : Type := N.

(** [new Date(new Number(ic.time()).valueOf() / 1000_000)]: nanoseconds to
    milliseconds; the time value of a [Date] is an integer.  The division here
    is exact, where the source first rounds the counter to a double: next to a
    millisecond boundary the source can land on the neighbouring millisecond.
    The properties below use [getCurrentDate time] as it stands and do not
    depend on its value.  (The three copies of this function in the sources
    are the same.) *)
Definition getCurrentDate (time : N) : Date := time / 1000000.

(** ** Records *)

Record User : Type := mkUser {
  user_id : str;
  user_name : str;
  user_pseudo : str;
  user_avatarURL : str;
  user_createdAt : Date;
  user_updatedAt : option Date
}.

Record UserPayload : Type := mkUserPayload {
  up_name : str;
  up_pseudo : str;
  up_avatarURL : str
}.

Inductive OutcomeType : Type := SKILL | CERTIFICATION | CERTIFIED_SKILL.

(** The [type] field is compared with [null] by [checkOutcomePayload]:
    [None] is [null]. *)
Record Outcome : Type := mkOutcome {
  outcome_id : str;
  outcome_title : str;
  outcome_type : option OutcomeType;
  outcome_createdAt : Date;
  outcome_updatedAt : option Date
}.

Record OutcomePayload : Type := mkOutcomePayload {
  op_title : str;
  op_type : option OutcomeType
}.

Record Course : Type := mkCourse {
  course_id : str;
  course_title : str;
  course_outcomes : list str;
  course_creatorId : str;
  course_createdAt : Date;
  course_updatedAt : option Date
}.

Record CoursePayload : Type := mkCoursePayload {
  cp_title : str;
  cp_outcomes : list str;
  cp_creatorId : str
}.

Record Session : Type := mkSession {
  session_id : str;
  session_course : str;
  session_owner : str;
  session_place : str;
  session_date : Date;
  session_time : N;
  session_length : N;
  session_learnerCapacity : N;
  session_createdAt : Date;
  session_updatedAt : Date
}.

Record SessionPayload : Type := mkSessionPayload {
  sp_course : str;
  sp_owner : str;
  sp_place : str;
  sp_date : Date;
  sp_time : N;
  sp_length : N;
  sp_learnerCapacity : N
}.

(** ** The durable maps *)

(** The operations of [StableBTreeMap] the sources call. *)
Module StableBTreeMap.
Section Ops.
Context {V : Type}.

Definition get (m : gmap str V) (k : str) : option V := m !! k.

Definition containsKey (m : gmap str V) (k : str) : bool :=
  bool_decide (is_Some (m !! k)).

(** [insert] returns the value it replaces, which no caller reads. *)
Definition insert (k : str) (v : V) (m : gmap str V) : gmap str V :=
  <[k := v]> m.

(** [remove] returns the value it removes, and the map without it. *)
Definition remove (k : str) (m : gmap str V) : option V * gmap str V :=
  (m !! k, delete k m).

(** The stored values.  The sources only scan them for a match or return
    them whole, so the order (by key in the B-tree) is left to [map_to_list]. *)
Definition values (m : gmap str V) : list V := (map_to_list m).*2.

End Ops.
End StableBTreeMap.

(** One field per [const ...Storage = StableBTreeMap<string, _>(0)]; each is
    a map of its own. *)
Record Store : Type := mkStore {
  usersStorage : gmap str User;
  outcomesStorage : gmap str Outcome;
  coursesStorage : gmap str Course;
  sessionsStorage : gmap str Session
}.

Definition emptyStore : Store := mkStore ∅ ∅ ∅ ∅.

Definition setUsers (m : gmap str User) (st : Store) : Store :=
  mkStore m (outcomesStorage st) (coursesStorage st) (sessionsStorage st).

Definition setOutcomes (m : gmap str Outcome) (st : Store) : Store :=
  mkStore (usersStorage st) m (coursesStorage st) (sessionsStorage st).

Definition setCourses (m : gmap str Course) (st : Store) : Store :=
  mkStore (usersStorage st) (outcomesStorage st) m (sessionsStorage st).

(** ** User/user.ts *)

Module UserMsg.

Definition addInvalid (payload : UserPayload) : str :=
  Js.lit "Error: invalid payload : " ++ Js.nl ++ Js.lit " name="
  ++ up_name payload ++ Js.lit " " ++ Js.nl ++ Js.lit " pseudo="
  ++ up_pseudo payload.

Definition addDuplicate (payload : UserPayload) : str :=
  Js.lit "Error: can't create user cause " ++ up_pseudo payload
  ++ Js.lit " already exists".

Definition updateNotFound (userId : str) : str :=
  Js.lit "Error: can't update user cause no user found matching id="
  ++ userId ++ Js.lit ")".

Definition updateDuplicate (payload : UserPayload) : str :=
  Js.lit "Error: can't update user cause pseudo=" ++ up_pseudo payload
  ++ Js.lit " already exists".

Definition updateInvalid : str :=
  Js.lit "Error: can't update user cause unvalid payload="
  ++ Js.objectObject.

Definition removeNotFound (userId : str) : str :=
  Js.lit "can't remove user cause no user found matching id=" ++ userId.

End UserMsg.

Definition getUsers (st : Store) : list User :=
  StableBTreeMap.values (usersStorage st).

(** [usersStorage.get(userId) || `no user found ...`]: an [Opt] is an object,
    which is truthy, so the right operand is never taken. *)
Definition getUser (st : Store) (userId : str) : option User :=
  StableBTreeMap.get (usersStorage st) userId.

(** The loop returns [true] at the first stored user whose trimmed pseudo is
    the trimmed argument, [false] when the values run out. *)
Definition checkPseudo (st : Store) (pseudo : str) : bool :=
  existsb (fun user => Js.eqb (Js.trim (user_pseudo user)) (Js.trim pseudo))
          (StableBTreeMap.values (usersStorage st)).

Definition checkUserId (st : Store) (userId : str) : bool :=
  StableBTreeMap.containsKey (usersStorage st) userId.

(** The first stored user whose pseudo is the argument, untrimmed. *)
Definition getIdFromPseudo (st : Store) (pseudo : str) : option str :=
  user_id <$> List.find (fun user => Js.eqb (user_pseudo user) pseudo)
                        (StableBTreeMap.values (usersStorage st)).

Definition checkPayload (payload : UserPayload) : bool :=
  2 <? Js.length (Js.trim (up_name payload))
       + Js.length (Js.trim (up_pseudo payload)).

Definition addUser (uuid : str) (time : N) (payload : UserPayload)
    (st : Store) : result User * Store :=
  if negb (checkPayload payload) then (Err (UserMsg.addInvalid payload), st)
  else if checkPseudo st (up_pseudo payload)
  then (Err (UserMsg.addDuplicate payload), st)
  else
    let user := {| user_id := uuid;
                   user_name := up_name payload;
                   user_pseudo := up_pseudo payload;
                   user_avatarURL := up_avatarURL payload;
                   user_createdAt := getCurrentDate time;
                   user_updatedAt := None |} in
    (Ret user,
     setUsers (StableBTreeMap.insert (user_id user) user (usersStorage st)) st).

(** [{ id: userId, ...user, ...payload, updatedAt: getCurrentDate() }]: the
    spread of [user] overwrites [id], the spread of [payload] overwrites
    [name], [pseudo] and [avatarURL].  The [None] case of [getUser] is behind
    the [checkUserId] guard ([getUser_checkUserId]) and is never taken. *)
Definition updateUser (time : N) (userId : str) (payload : UserPayload)
    (st : Store) : result User * Store :=
  if negb (checkUserId st userId)
  then (Err (UserMsg.updateNotFound userId), st)
  else if checkPseudo st (up_pseudo payload)
  then (Err (UserMsg.updateDuplicate payload), st)
  else if negb (checkPayload payload) then (Err UserMsg.updateInvalid, st)
  else
    match getUser st userId with
    | Some user =>
        let updatedUser := {| user_id := user_id user;
                              user_name := up_name payload;
                              user_pseudo := up_pseudo payload;
                              user_avatarURL := up_avatarURL payload;
                              user_createdAt := user_createdAt user;
                              user_updatedAt := Some (getCurrentDate time) |} in
        (Ret updatedUser,
         setUsers (StableBTreeMap.insert userId updatedUser (usersStorage st))
                  st)
    | None => (Err (UserMsg.updateNotFound userId), st)
    end.

(** Returns the [Opt] that [remove] returns. *)
Definition removeUser (userId : str) (st : Store)
    : result (option User) * Store :=
  if negb (checkUserId st userId)
  then (Err (UserMsg.removeNotFound userId), st)
  else
    let (removed, users) := StableBTreeMap.remove userId (usersStorage st) in
    (Ret removed, setUsers users st).

(** ** Outcome/outcome.ts *)

Module OutcomeMsg.

Definition invalid : str :=
  Js.lit "Error: unexpected values in payload: " ++ Js.nl ++ Js.lit " "
  ++ Js.objectObject.

Definition duplicate (payload : OutcomePayload) : str :=
  Js.lit "Error: title '" ++ op_title payload ++ Js.lit "' already exists ".

Definition notFound (id : str) : str :=
  Js.lit "Error: no outcome found with id=" ++ id.

End OutcomeMsg.

Definition getOutcomes (st : Store) : list Outcome :=
  StableBTreeMap.values (outcomesStorage st).

Definition getOutcome (st : Store) (id : str) : option Outcome :=
  StableBTreeMap.get (outcomesStorage st) id.

Definition checkOutcomePayload (payload : OutcomePayload) : bool :=
  (0 <? Js.length (Js.trim (op_title payload)))
  && bool_decide (op_type payload ≠ None).

Definition isExistingOutcomeTitle (st : Store) (title : str) : bool :=
  existsb (fun outcome =>
             Js.eqb (Js.trim (outcome_title outcome)) (Js.trim title))
          (StableBTreeMap.values (outcomesStorage st)).

Definition chetOutcomeId (st : Store) (id : str) : bool :=
  StableBTreeMap.containsKey (outcomesStorage st) id.

Definition addOutcome (uuid : str) (time : N) (payload : OutcomePayload)
    (st : Store) : result Outcome * Store :=
  if negb (checkOutcomePayload payload) then (Err OutcomeMsg.invalid, st)
  else if isExistingOutcomeTitle st (op_title payload)
  then (Err (OutcomeMsg.duplicate payload), st)
  else
    let outcome := {| outcome_id := uuid;
                      outcome_title := op_title payload;
                      outcome_type := op_type payload;
                      outcome_createdAt := getCurrentDate time;
                      outcome_updatedAt := None |} in
    (Ret outcome,
     setOutcomes
       (StableBTreeMap.insert (outcome_id outcome) outcome (outcomesStorage st))
       st).

(** [{ ...outcome, ...payload, updatedAt: getCurrentDate() }].  The [None]
    case of [get] is behind the [chetOutcomeId] guard
    ([getOutcome_chetOutcomeId]) and is never taken. *)
Definition updateOutcome (time : N) (id : str) (payload : OutcomePayload)
    (st : Store) : result Outcome * Store :=
  if negb (chetOutcomeId st id) then (Err (OutcomeMsg.notFound id), st)
  else if negb (checkOutcomePayload payload)
  then (Err OutcomeMsg.invalid, st)
  else
    match StableBTreeMap.get (outcomesStorage st) id with
    | Some outcome =>
        if isExistingOutcomeTitle st (op_title payload)
           && negb (Js.eqb (outcome_title outcome) (op_title payload))
        then (Err (OutcomeMsg.duplicate payload), st)
        else
          let updatedOutcome :=
            {| outcome_id := outcome_id outcome;
               outcome_title := op_title payload;
               outcome_type := op_type payload;
               outcome_createdAt := outcome_createdAt outcome;
               outcome_updatedAt := Some (getCurrentDate time) |} in
          (Ret updatedOutcome,
           setOutcomes
             (StableBTreeMap.insert id updatedOutcome (outcomesStorage st)) st)
    | None => (Err (OutcomeMsg.notFound id), st)
    end.

(** Returns the [Opt] that [remove] returns. *)
Definition removeOutcome (id : str) (st : Store)
    : result (option Outcome) * Store :=
  if negb (chetOutcomeId st id) then (Err (OutcomeMsg.notFound id), st)
  else
    let (removed, outcomes) :=
      StableBTreeMap.remove id (outcomesStorage st) in
    (Ret removed, setOutcomes outcomes st).

(** ** Course/course.ts *)

Module CourseMsg.

Definition duplicate (payload : CoursePayload) : str :=
  Js.lit "Error: course '" ++ cp_title payload ++ Js.lit "' already exists".

Definition invalid : str :=
  Js.lit "Error: unexpected values in payload: " ++ Js.nl ++ Js.lit " "
  ++ Js.objectObject.

Definition notFound (id : str) : str :=
  Js.lit "Error: no course with id=" ++ id ++ Js.lit " found".

Definition removedNothing : str := Js.lit "not found".

End CourseMsg.

Definition getCourses (st : Store) : list Course :=
  StableBTreeMap.values (coursesStorage st).

Definition getCourse (st : Store) (id : str) : option Course :=
  StableBTreeMap.get (coursesStorage st) id.

Definition checkCourseId (st : Store) (courseId : str) : bool :=
  StableBTreeMap.containsKey (coursesStorage st) courseId.

(** [title.trim().length >= 0 && checkUserId(creatorId)], then the loop over
    [payload.outcomes], which returns [false] at the first id that is not a
    stored outcome. *)
Definition checkCoursePayload (st : Store) (payload : CoursePayload) : bool :=
  if (0 <=? Js.length (Js.trim (cp_title payload)))
     && checkUserId st (cp_creatorId payload)
  then forallb (chetOutcomeId st) (cp_outcomes payload)
  else false.

Definition isExistingCourseTitle (st : Store) (title : str) : bool :=
  existsb (fun course =>
             Js.eqb (Js.trim (course_title course)) (Js.trim title))
          (StableBTreeMap.values (coursesStorage st)).

Definition addCourse (uuid : str) (time : N) (payload : CoursePayload)
    (st : Store) : result Course * Store :=
  if isExistingCourseTitle st (cp_title payload)
  then (Err (CourseMsg.duplicate payload), st)
  else if negb (checkCoursePayload st payload)
  then (Err CourseMsg.invalid, st)
  else
    let course := {| course_id := uuid;
                     course_title := cp_title payload;
                     course_outcomes := cp_outcomes payload;
                     course_creatorId := cp_creatorId payload;
                     course_createdAt := getCurrentDate time;
                     course_updatedAt := None |} in
    (Ret course,
     setCourses
       (StableBTreeMap.insert (course_id course) course (coursesStorage st))
       st).

(** The two guards are the source's: [if (checkCourseId(id))] and
    [if (!checkCourseId(id))].  What follows them is
    [{ ...course, ...payload, updatedAt: getCurrentDate() }]. *)
Definition updateCourse (time : N) (id : str) (payload : CoursePayload)
    (st : Store) : result Course * Store :=
  if checkCourseId st id then (Err (CourseMsg.notFound id), st)
  else if negb (checkCourseId st id) then (Err CourseMsg.invalid, st)
  else
    match getCourse st id with
    | Some course =>
        let updatedCourse :=
          {| course_id := course_id course;
             course_title := cp_title payload;
             course_outcomes := cp_outcomes payload;
             course_creatorId := cp_creatorId payload;
             course_createdAt := course_createdAt course;
             course_updatedAt := Some (getCurrentDate time) |} in
        (Ret updatedCourse,
         setCourses
           (StableBTreeMap.insert id updatedCourse (coursesStorage st)) st)
    | None => (Err (CourseMsg.notFound id), st)
    end.

(** [coursesStorage.remove(id).Some || 'not found'] *)
Definition removeCourse (id : str) (st : Store) : result Course * Store :=
  if negb (checkCourseId st id) then (Err (CourseMsg.notFound id), st)
  else
    let (removed, courses) := StableBTreeMap.remove id (coursesStorage st) in
    (match removed with
     | Some course => Ret course
     | None => Err CourseMsg.removedNothing
     end,
     setCourses courses st).

(** ** session/session.ts *)

(** The file declares the two classes [Session] and [SessionPayload] (the
    records above) and [const sessionsStorage] (the last field of [Store]);
    it declares no function. *)

(** ** Calls *)

(** One constructor per mutating operation of the three files, with the
    arguments of the call and what the call reads from its environment. *)
Inductive call : Type :=
| AddUser (uuid : str) (time : N) (payload : UserPayload)
| UpdateUser (time : N) (userId : str) (payload : UserPayload)
| RemoveUser (userId : str)
| AddOutcome (uuid : str) (time : N) (payload : OutcomePayload)
| UpdateOutcome (time : N) (id : str) (payload : OutcomePayload)
| RemoveOutcome (id : str)
| AddCourse (uuid : str) (time : N) (payload : CoursePayload)
| UpdateCourse (time : N) (id : str) (payload : CoursePayload)
| RemoveCourse (id : str).

(** What a call can return when it does not return a message. *)
Inductive value : Type :=
| VUser (user : User)
| VOptUser (removed : option User)
| VOutcome (outcome : Outcome)
| VOptOutcome (removed : option Outcome)
| VCourse (course : Course).

Definition returning {T} (inj : T -> value) (r : result T * Store)
    : result value * Store :=
  (match r.1 with Ret v => Ret (inj v) | Err message => Err message end, r.2).

Definition exec (c : call) (st : Store) : result value * Store :=
  match c with
  | AddUser uuid time payload => returning VUser (addUser uuid time payload st)
  | UpdateUser time userId payload =>
      returning VUser (updateUser time userId payload st)
  | RemoveUser userId => returning VOptUser (removeUser userId st)
  | AddOutcome uuid time payload =>
      returning VOutcome (addOutcome uuid time payload st)
  | UpdateOutcome time id payload =>
      returning VOutcome (updateOutcome time id payload st)
  | RemoveOutcome id => returning VOptOutcome (removeOutcome id st)
  | AddCourse uuid time payload =>
      returning VCourse (addCourse uuid time payload st)
  | UpdateCourse time id payload =>
      returning VCourse (updateCourse time id payload st)
  | RemoveCourse id => returning VCourse (removeCourse id st)
  end.

(** The store after a sequence of calls, first call first. *)
Definition run (calls : list call) (st : Store) : Store :=
  foldl (fun st c => (exec c st).2) st calls.

(** ** Uniqueness of a field *)

(** No two keys of [m] hold records whose [field]s are equal once trimmed. *)
Definition uniqueOn {V : Type} (field : V -> str) (m : gmap str V) : Prop :=
  ∀ i j x y,
    m !! i = Some x -> m !! j = Some y ->
    Js.trim (field x) = Js.trim (field y) -> i = j.

Definition uniqueness (st : Store) : Prop :=
  uniqueOn user_pseudo (usersStorage st)
  ∧ uniqueOn outcome_title (outcomesStorage st)
  ∧ uniqueOn course_title (coursesStorage st).

(** ** Records behind a call *)

(** The record an update call addresses: the one stored under the call's id
    in the map the call updates. *)
Definition updateTarget (c : call) (st : Store) : option value :=
  match c with
  | UpdateUser _ userId _ => VUser <$> getUser st userId
  | UpdateOutcome _ id _ => VOutcome <$> getOutcome st id
  | UpdateCourse _ id _ => VCourse <$> getCourse st id
  | _ => None
  end.

Definition valueId (v : value) : option str :=
  match v with
  | VUser user => Some (user_id user)
  | VOptUser removed => user_id <$> removed
  | VOutcome outcome => Some (outcome_id outcome)
  | VOptOutcome removed => outcome_id <$> removed
  | VCourse course => Some (course_id course)
  end.

Definition valueCreatedAt (v : value) : option Date :=
  match v with
  | VUser user => Some (user_createdAt user)
  | VOptUser removed => user_createdAt <$> removed
  | VOutcome outcome => Some (outcome_createdAt outcome)
  | VOptOutcome removed => outcome_createdAt <$> removed
  | VCourse course => Some (course_createdAt course)
  end.

(** ** A small history *)

(** Ada registers, an outcome is recorded, and Ada creates the course
    "Intro" that leads to it. *)
Module Scenario.

Definition u1 : str := Js.lit "u1".
Definition o1 : str := Js.lit "o1".
Definition c1 : str := Js.lit "c1".
Definition ghost : str := Js.lit "nonexistent-id".

Definition ada : UserPayload :=
  mkUserPayload (Js.lit "Ada") (Js.lit "ada99") (Js.lit "x").

Definition rocq : OutcomePayload :=
  mkOutcomePayload (Js.lit "Rocq") (Some SKILL).

Definition intro : CoursePayload :=
  mkCoursePayload (Js.lit "Intro") [o1] u1.

Definition history : list call :=
  [ AddUser u1 1000000000 ada;
    AddOutcome o1 2000000000 rocq;
    AddCourse c1 3000000000 intro ].

Definition st : Store := run history emptyStore.

(** What the history leaves stored. *)
Definition adaRecord : User :=
  mkUser u1 (Js.lit "Ada") (Js.lit "ada99") (Js.lit "x") 1000 None.

Definition introRecord : Course :=
  mkCourse c1 (Js.lit "Intro") [o1] u1 3000 None.

(** Later calls are made at this time. *)
Definition later : N := 4000000000.

(** Ada changes her name, pseudo and avatar. *)
Definition rename : UserPayload :=
  mkUserPayload (Js.lit "Ada L") (Js.lit "ada") (Js.lit "y").

Definition adaRenamed : User :=
  mkUser u1 (Js.lit "Ada L") (Js.lit "ada") (Js.lit "y") 1000 (Some 4000).

(** Ada changes her name and avatar and keeps her pseudo. *)
Definition keepPseudo : UserPayload :=
  mkUserPayload (Js.lit "Ada Lovelace") (Js.lit "ada99") (Js.lit "y").

(** The outcome keeps its title and changes its type. *)
Definition keepTitle : OutcomePayload :=
  mkOutcomePayload (Js.lit "Rocq") (Some CERTIFIED_SKILL).

(** A new title for the course, with the references it already has. *)
Definition retitle : CoursePayload :=
  mkCoursePayload (Js.lit "Intro to Rocq") [o1] u1.

(** Payloads with blank fields. *)
Definition nameless : UserPayload :=
  mkUserPayload (Js.lit "") (Js.lit "bea42") (Js.lit "z").

Definition namelessRecord : User :=
  mkUser (Js.lit "u2") (Js.lit "") (Js.lit "bea42") (Js.lit "z") 4000 None.

Definition blankUser : UserPayload :=
  mkUserPayload (Js.lit "  ") (Js.lit " b ") (Js.lit "z").

Definition blankOutcome : OutcomePayload :=
  mkOutcomePayload (Js.lit "   ") (Some SKILL).

Definition blankCourse : CoursePayload :=
  mkCoursePayload (Js.lit "   ") [] u1.

Definition blankCourseRecord : Course :=
  mkCourse (Js.lit "c2") (Js.lit "   ") [] u1 4000 None.

(** Payloads with references to nothing. *)
Definition dangling : CoursePayload :=
  mkCoursePayload (Js.lit "Adv") [ghost] u1.

Definition danglingDuplicate : CoursePayload :=
  mkCoursePayload (Js.lit " Intro ") [] ghost.

End Scenario.

(** ** Registries, keys and lists *)

Inductive registry : Type := Users | Outcomes | Courses.

Definition callRegistry (c : call) : registry :=
  match c with
  | AddUser _ _ _ | UpdateUser _ _ _ | RemoveUser _ => Users
  | AddOutcome _ _ _ | UpdateOutcome _ _ _ | RemoveOutcome _ => Outcomes
  | AddCourse _ _ _ | UpdateCourse _ _ _ | RemoveCourse _ => Courses
  end.

(** The key a call writes or removes: the generated id of an add, the id
    argument of an update or of a remove. *)
Definition callKey (c : call) : str :=
  match c with
  | AddUser uuid _ _ | AddOutcome uuid _ _ | AddCourse uuid _ _ => uuid
  | UpdateUser _ id _ | UpdateOutcome _ id _ | UpdateCourse _ id _ => id
  | RemoveUser id | RemoveOutcome id | RemoveCourse id => id
  end.

Definition isAdd (c : call) : bool :=
  match c with
  | AddUser _ _ _ | AddOutcome _ _ _ | AddCourse _ _ _ => true
  | _ => false
  end.

Definition isRemove (c : call) : bool :=
  match c with
  | RemoveUser _ | RemoveOutcome _ | RemoveCourse _ => true
  | _ => false
  end.

(** [getUser], [getOutcome] and [getCourse], by registry. *)
Definition lookupValue (r : registry) (st : Store) (k : str) : option value :=
  match r with
  | Users => VUser <$> getUser st k
  | Outcomes => VOutcome <$> getOutcome st k
  | Courses => VCourse <$> getCourse st k
  end.

(** [getUsers], [getOutcomes] and [getCourses], by registry. *)
Definition listValues (r : registry) (st : Store) : list value :=
  match r with
  | Users => VUser <$> getUsers st
  | Outcomes => VOutcome <$> getOutcomes st
  | Courses => VCourse <$> getCourses st
  end.

(** The trimmed pseudo or title of the payload of an add or update call. *)
Definition callUnique (c : call) : option str :=
  match c with
  | AddUser _ _ payload | UpdateUser _ _ payload =>
      Some (Js.trim (up_pseudo payload))
  | AddOutcome _ _ payload | UpdateOutcome _ _ payload =>
      Some (Js.trim (op_title payload))
  | AddCourse _ _ payload | UpdateCourse _ _ payload =>
      Some (Js.trim (cp_title payload))
  | RemoveUser _ | RemoveOutcome _ | RemoveCourse _ => None
  end.

(** Every record of [m] is stored under its own id. *)
Definition keyedBy {V : Type} (idOf : V -> str) (m : gmap str V) : Prop :=
  forall k v, m !! k = Some v -> idOf v = k.

Definition keyed (st : Store) : Prop :=
  keyedBy user_id (usersStorage st)
  /\ keyedBy outcome_id (outcomesStorage st)
  /\ keyedBy course_id (coursesStorage st).

(** * Properties *)

(** ** The durable map *)

Section StableBTreeMapFacts.
Context {V : Type}.
Implicit Types (m : gmap str V) (k : str) (test : V -> bool).

Lemma containsKey_true m k :
  StableBTreeMap.containsKey m k = true <-> is_Some (m !! k).
Proof. unfold StableBTreeMap.containsKey. apply bool_decide_eq_true. Qed.

Lemma containsKey_false m k :
  StableBTreeMap.containsKey m k = false <-> m !! k = None.
Proof.
  unfold StableBTreeMap.containsKey.
  rewrite bool_decide_eq_false, eq_None_not_Some. reflexivity.
Qed.

Lemma elem_of_values m v :
  v ∈ StableBTreeMap.values m <-> exists k, m !! k = Some v.
Proof.
  unfold StableBTreeMap.values. rewrite list_elem_of_fmap. split.
  - intros [[k v'] [-> Hin]]. exists k. by apply elem_of_map_to_list.
  - intros [k Hk]. exists (k, v). split; [done|].
    by apply elem_of_map_to_list.
Qed.

(** A scan that stops at the first hit finds a stored value or none. *)
Lemma scan_true test m :
  existsb test (StableBTreeMap.values m) = true
  <-> exists k v, m !! k = Some v /\ test v = true.
Proof.
  rewrite existsb_exists. split.
  - intros (v & Hin & Hv). apply list_elem_of_In, elem_of_values in Hin.
    destruct Hin as [k Hk]. eauto.
  - intros (k & v & Hk & Hv). exists v. split; [|done].
    apply list_elem_of_In, elem_of_values. eauto.
Qed.

Lemma scan_false test m :
  existsb test (StableBTreeMap.values m) = false
  <-> forall k v, m !! k = Some v -> test v = false.
Proof.
  split.
  - intros Hscan k v Hk. destruct (test v) eqn:Hv; [|done].
    assert (existsb test (StableBTreeMap.values m) = true) as Htrue
      by (apply scan_true; eauto).
    congruence.
  - intros Hall. destruct (existsb _ _) eqn:Hscan; [|done].
    apply scan_true in Hscan as (k & v & Hk & Hv).
    rewrite (Hall k v Hk) in Hv. discriminate.
Qed.

End StableBTreeMapFacts.

Lemma Js_eqb_true a b : Js.eqb a b = true <-> a = b.
Proof. apply bool_decide_eq_true. Qed.

Lemma Js_eqb_false a b : Js.eqb a b = false <-> a <> b.
Proof. apply bool_decide_eq_false. Qed.

(** ** Uniqueness under insert and delete *)

Section UniqueOn.
Context {V : Type} (field : V -> str).
Implicit Types (m : gmap str V) (k : str) (v : V).

Lemma uniqueOn_empty : uniqueOn field (∅ : gmap str V).
Proof. intros i j x y Hi. by rewrite lookup_empty in Hi. Qed.

Lemma uniqueOn_delete m k : uniqueOn field m -> uniqueOn field (delete k m).
Proof.
  intros Hm i j x y Hi Hj.
  apply lookup_delete_Some in Hi as [_ Hi].
  apply lookup_delete_Some in Hj as [_ Hj].
  by apply (Hm i j x y).
Qed.

(** Storing a record whose trimmed field no stored record has. *)
Lemma uniqueOn_insert_fresh m k v :
  uniqueOn field m ->
  (forall i x, m !! i = Some x -> Js.trim (field x) <> Js.trim (field v)) ->
  uniqueOn field (<[k := v]> m).
Proof.
  intros Hm Hfresh i j x y Hi Hj Heq.
  apply lookup_insert_Some in Hi as [[<- <-] | [Hki Hi]];
    apply lookup_insert_Some in Hj as [[<- <-] | [Hkj Hj]].
  - done.
  - destruct (Hfresh j y Hj). done.
  - destruct (Hfresh i x Hi). done.
  - by apply (Hm i j x y).
Qed.

(** Replacing a record by one with the same trimmed field. *)
Lemma uniqueOn_insert_same m k v old :
  uniqueOn field m ->
  m !! k = Some old ->
  Js.trim (field old) = Js.trim (field v) ->
  uniqueOn field (<[k := v]> m).
Proof.
  intros Hm Hold Hsame i j x y Hi Hj Heq.
  apply lookup_insert_Some in Hi as [[<- <-] | [Hki Hi]];
    apply lookup_insert_Some in Hj as [[<- <-] | [Hkj Hj]].
  - done.
  - apply (Hm k j old y); congruence.
  - apply (Hm i k x old); congruence.
  - by apply (Hm i j x y).
Qed.

End UniqueOn.

Lemma scan_trim_false {V : Type} (field : V -> str) (m : gmap str V) t :
  existsb (fun v => Js.eqb (Js.trim (field v)) (Js.trim t))
          (StableBTreeMap.values m) = false
  <-> forall k v, m !! k = Some v -> Js.trim (field v) <> Js.trim t.
Proof.
  rewrite scan_false. split; intros H k v Hk; apply Js_eqb_false; eauto.
Qed.

Lemma scan_trim_true {V : Type} (field : V -> str) (m : gmap str V) t :
  existsb (fun v => Js.eqb (Js.trim (field v)) (Js.trim t))
          (StableBTreeMap.values m) = true
  <-> exists k v, m !! k = Some v /\ Js.trim (field v) = Js.trim t.
Proof.
  rewrite scan_true. split; intros (k & v & Hk & Hv); exists k, v;
    (split; [done|]); by apply Js_eqb_true.
Qed.

(** ** Guards and lookups agree *)

Lemma getUser_checkUserId st userId :
  checkUserId st userId = true -> exists user, getUser st userId = Some user.
Proof. intros H. by apply containsKey_true in H. Qed.

Lemma getOutcome_chetOutcomeId st id :
  chetOutcomeId st id = true -> exists outcome, getOutcome st id = Some outcome.
Proof. intros H. by apply containsKey_true in H. Qed.

Lemma getCourse_checkCourseId st id :
  checkCourseId st id = true -> exists course, getCourse st id = Some course.
Proof. intros H. by apply containsKey_true in H. Qed.

Lemma setUsers_same st : setUsers (usersStorage st) st = st.
Proof. by destruct st. Qed.

Lemma setOutcomes_same st : setOutcomes (outcomesStorage st) st = st.
Proof. by destruct st. Qed.

Lemma setCourses_same st : setCourses (coursesStorage st) st = st.
Proof. by destruct st. Qed.

(** ** updateCourse *)

(** Whatever the store, [updateCourse] leaves through one of its two guards. *)
Lemma updateCourse_guards time id payload st :
  updateCourse time id payload st
  = (Err (if checkCourseId st id then CourseMsg.notFound id
          else CourseMsg.invalid), st).
Proof. unfold updateCourse. by destruct (checkCourseId st id). Qed.

(** ** Successful updates *)

Lemma updateUser_Ret time userId payload st updated :
  (updateUser time userId payload st).1 = Ret updated ->
  exists prior,
    getUser st userId = Some prior
    /\ checkPseudo st (up_pseudo payload) = false
    /\ checkPayload payload = true
    /\ updated = {| user_id := user_id prior;
                    user_name := up_name payload;
                    user_pseudo := up_pseudo payload;
                    user_avatarURL := up_avatarURL payload;
                    user_createdAt := user_createdAt prior;
                    user_updatedAt := Some (getCurrentDate time) |}
    /\ (updateUser time userId payload st).2
       = setUsers (<[userId := updated]> (usersStorage st)) st.
Proof.
  unfold updateUser.
  destruct (checkUserId st userId); [|discriminate]. simpl.
  destruct (checkPseudo st (up_pseudo payload)); [discriminate|].
  destruct (checkPayload payload); [|discriminate]. simpl.
  destruct (getUser st userId) as [prior|]; [|discriminate]. simpl.
  intros [= <-]. by exists prior.
Qed.

Lemma updateOutcome_Ret time id payload st updated :
  (updateOutcome time id payload st).1 = Ret updated ->
  exists prior,
    getOutcome st id = Some prior
    /\ checkOutcomePayload payload = true
    /\ (isExistingOutcomeTitle st (op_title payload) = false
        \/ outcome_title prior = op_title payload)
    /\ updated = {| outcome_id := outcome_id prior;
                    outcome_title := op_title payload;
                    outcome_type := op_type payload;
                    outcome_createdAt := outcome_createdAt prior;
                    outcome_updatedAt := Some (getCurrentDate time) |}
    /\ (updateOutcome time id payload st).2
       = setOutcomes (<[id := updated]> (outcomesStorage st)) st.
Proof.
  unfold updateOutcome, getOutcome.
  destruct (chetOutcomeId st id); [|discriminate]. simpl.
  destruct (checkOutcomePayload payload); [|discriminate]. simpl.
  destruct (StableBTreeMap.get (outcomesStorage st) id) as [prior|];
    [|discriminate].
  destruct (isExistingOutcomeTitle st (op_title payload)) eqn:Hscan; simpl.
  - destruct (Js.eqb (outcome_title prior) (op_title payload)) eqn:Hown;
      [|discriminate]. simpl.
    intros [= <-]. exists prior. apply Js_eqb_true in Hown. auto 6.
  - intros [= <-]. exists prior. auto 6.
Qed.

Lemma updateCourse_not_Ret time id payload st updated :
  (updateCourse time id payload st).1 <> Ret updated.
Proof. rewrite updateCourse_guards. discriminate. Qed.

(** ** Every call keeps the unique fields unique *)

Lemma addUser_uniqueness uuid time payload st :
  uniqueness st -> uniqueness (addUser uuid time payload st).2.
Proof.
  intros (Hu & Ho & Hc). unfold addUser.
  destruct (checkPayload payload); simpl; [|done].
  destruct (checkPseudo st (up_pseudo payload)) eqn:Hscan; simpl; [done|].
  split; [|done]. simpl. apply uniqueOn_insert_fresh; [done|].
  by apply scan_trim_false.
Qed.

Lemma updateUser_uniqueness time userId payload st :
  uniqueness st -> uniqueness (updateUser time userId payload st).2.
Proof.
  intros (Hu & Ho & Hc). unfold updateUser.
  destruct (checkUserId st userId); simpl; [|done].
  destruct (checkPseudo st (up_pseudo payload)) eqn:Hscan; simpl; [done|].
  destruct (checkPayload payload); simpl; [|done].
  destruct (getUser st userId) as [prior|]; simpl; [|done].
  split; [|done]. simpl. apply uniqueOn_insert_fresh; [done|].
  by apply scan_trim_false.
Qed.

Lemma removeUser_uniqueness userId st :
  uniqueness st -> uniqueness (removeUser userId st).2.
Proof.
  intros (Hu & Ho & Hc). unfold removeUser.
  destruct (checkUserId st userId); simpl; [|done].
  split; [|done]. simpl. by apply uniqueOn_delete.
Qed.

Lemma addOutcome_uniqueness uuid time payload st :
  uniqueness st -> uniqueness (addOutcome uuid time payload st).2.
Proof.
  intros (Hu & Ho & Hc). unfold addOutcome.
  destruct (checkOutcomePayload payload); simpl; [|done].
  destruct (isExistingOutcomeTitle st (op_title payload)) eqn:Hscan; simpl;
    [done|].
  split; [done|]. split; [|done]. simpl.
  apply uniqueOn_insert_fresh; [done|]. by apply scan_trim_false.
Qed.

Lemma updateOutcome_uniqueness time id payload st :
  uniqueness st -> uniqueness (updateOutcome time id payload st).2.
Proof.
  intros (Hu & Ho & Hc).
  destruct (updateOutcome time id payload st).1 as [updated|message] eqn:Hret.
  - apply updateOutcome_Ret in Hret
      as (prior & Hprior & _ & Htitle & -> & ->).
    split; [done|]. split; [|done]. simpl.
    destruct Htitle as [Hscan | Hown].
    + apply uniqueOn_insert_fresh; [done|]. by apply scan_trim_false.
    + apply (uniqueOn_insert_same _ _ _ _ prior); [done..|].
      simpl. by rewrite Hown.
  - revert Hret. unfold updateOutcome.
    destruct (chetOutcomeId st id); simpl; [|done].
    destruct (checkOutcomePayload payload); simpl; [|done].
    destruct (StableBTreeMap.get (outcomesStorage st) id) as [prior|];
      simpl; [|done].
    destruct (_ && _); simpl; [done|discriminate].
Qed.

Lemma removeOutcome_uniqueness id st :
  uniqueness st -> uniqueness (removeOutcome id st).2.
Proof.
  intros (Hu & Ho & Hc). unfold removeOutcome.
  destruct (chetOutcomeId st id); simpl; [|done].
  split; [done|]. split; [|done]. simpl. by apply uniqueOn_delete.
Qed.

Lemma addCourse_uniqueness uuid time payload st :
  uniqueness st -> uniqueness (addCourse uuid time payload st).2.
Proof.
  intros (Hu & Ho & Hc). unfold addCourse.
  destruct (isExistingCourseTitle st (cp_title payload)) eqn:Hscan; simpl;
    [done|].
  destruct (checkCoursePayload st payload); simpl; [|done].
  split; [done|]. split; [done|]. simpl.
  apply uniqueOn_insert_fresh; [done|]. by apply scan_trim_false.
Qed.

Lemma updateCourse_uniqueness time id payload st :
  uniqueness st -> uniqueness (updateCourse time id payload st).2.
Proof. by rewrite updateCourse_guards. Qed.

Lemma removeCourse_uniqueness id st :
  uniqueness st -> uniqueness (removeCourse id st).2.
Proof.
  intros (Hu & Ho & Hc). unfold removeCourse.
  destruct (checkCourseId st id); simpl; [|done].
  split; [done|]. split; [done|]. simpl. by apply uniqueOn_delete.
Qed.

Lemma exec_uniqueness c st : uniqueness st -> uniqueness (exec c st).2.
Proof.
  destruct c; simpl;
    eauto using addUser_uniqueness, updateUser_uniqueness,
      removeUser_uniqueness, addOutcome_uniqueness, updateOutcome_uniqueness,
      removeOutcome_uniqueness, addCourse_uniqueness, updateCourse_uniqueness,
      removeCourse_uniqueness.
Qed.

Lemma run_uniqueness calls :
  forall st, uniqueness st -> uniqueness (run calls st).
Proof.
  induction calls as [|c calls IH]; intros st Hst; simpl; [done|].
  apply IH. by apply exec_uniqueness.
Qed.

Lemma uniqueness_emptyStore : uniqueness emptyStore.
Proof. repeat split; apply uniqueOn_empty. Qed.

(** C6: from the empty registries, after any sequence of add, update and
    remove calls, no two stored users have the same trimmed pseudo, no two
    stored outcomes the same trimmed title, and no two stored courses the same
    trimmed title. *)
Theorem uniqueness_after_any_calls (calls : list call) :
  uniqueness (run calls emptyStore).
Proof. apply run_uniqueness, uniqueness_emptyStore. Qed.

(** ** A call that returns a message stores nothing *)

Lemma isErr_returning {T} (inj : T -> value) (r : result T * Store) :
  isErr (returning inj r).1 = isErr r.1.
Proof. unfold returning. simpl. by destruct r.1. Qed.

Lemma addUser_Err uuid time payload st :
  isErr (addUser uuid time payload st).1 = true ->
  (addUser uuid time payload st).2 = st.
Proof.
  unfold addUser. destruct (checkPayload payload); simpl; [|done].
  destruct (checkPseudo st (up_pseudo payload)); simpl; [done|discriminate].
Qed.

Lemma updateUser_Err time userId payload st :
  isErr (updateUser time userId payload st).1 = true ->
  (updateUser time userId payload st).2 = st.
Proof.
  unfold updateUser. destruct (checkUserId st userId); simpl; [|done].
  destruct (checkPseudo st (up_pseudo payload)); simpl; [done|].
  destruct (checkPayload payload); simpl; [|done].
  destruct (getUser st userId); simpl; [discriminate|done].
Qed.

Lemma removeUser_Err userId st :
  isErr (removeUser userId st).1 = true -> (removeUser userId st).2 = st.
Proof.
  unfold removeUser.
  destruct (checkUserId st userId); simpl; [discriminate|done].
Qed.

Lemma addOutcome_Err uuid time payload st :
  isErr (addOutcome uuid time payload st).1 = true ->
  (addOutcome uuid time payload st).2 = st.
Proof.
  unfold addOutcome. destruct (checkOutcomePayload payload); simpl; [|done].
  destruct (isExistingOutcomeTitle st (op_title payload)); simpl;
    [done|discriminate].
Qed.

Lemma updateOutcome_Err time id payload st :
  isErr (updateOutcome time id payload st).1 = true ->
  (updateOutcome time id payload st).2 = st.
Proof.
  unfold updateOutcome. destruct (chetOutcomeId st id); simpl; [|done].
  destruct (checkOutcomePayload payload); simpl; [|done].
  destruct (StableBTreeMap.get (outcomesStorage st) id); simpl; [|done].
  destruct (_ && _); simpl; [done|discriminate].
Qed.

Lemma removeOutcome_Err id st :
  isErr (removeOutcome id st).1 = true -> (removeOutcome id st).2 = st.
Proof.
  unfold removeOutcome.
  destruct (chetOutcomeId st id); simpl; [discriminate|done].
Qed.

Lemma addCourse_Err uuid time payload st :
  isErr (addCourse uuid time payload st).1 = true ->
  (addCourse uuid time payload st).2 = st.
Proof.
  unfold addCourse.
  destruct (isExistingCourseTitle st (cp_title payload)); simpl; [done|].
  destruct (checkCoursePayload st payload); simpl; [discriminate|done].
Qed.

(** The ['not found'] of [removeCourse] would follow a [remove] of a key the
    map does not hold, which leaves the map as it is. *)
Lemma removeCourse_Err id st :
  isErr (removeCourse id st).1 = true -> (removeCourse id st).2 = st.
Proof.
  unfold removeCourse, StableBTreeMap.remove.
  destruct (checkCourseId st id); simpl; [|done].
  destruct (coursesStorage st !! id) eqn:Hid; simpl; [discriminate|].
  intros _. rewrite delete_id by done. apply setCourses_same.
Qed.

(** C8: whichever of the nine add, update and remove operations is called,
    if the call returns an error message then the store it leaves (all
    four maps) is the store it was given. *)
Theorem exec_error_stores_nothing (c : call) (st : Store) :
  isErr (exec c st).1 = true -> (exec c st).2 = st.
Proof.
  destruct c; cbn [exec]; rewrite isErr_returning; unfold returning;
    cbn [snd];
    [ apply addUser_Err | apply updateUser_Err | apply removeUser_Err
    | apply addOutcome_Err | apply updateOutcome_Err | apply removeOutcome_Err
    | apply addCourse_Err | | apply removeCourse_Err ].
  intros _. by rewrite updateCourse_guards.
Qed.

(** ** update keeps [id] and [createdAt] *)

(** C9: when an update call ([updateUser], [updateOutcome] or
    [updateCourse]) on a stored record succeeds, the record it returns has the
    [id] and the [createdAt] of the record stored before the call, and it is
    the record stored under the same key after the call. *)
Theorem update_keeps_id_and_createdAt (c : call) (st : Store)
    (prior updated : value) :
  updateTarget c st = Some prior ->
  (exec c st).1 = Ret updated ->
  valueId updated = valueId prior
  /\ valueCreatedAt updated = valueCreatedAt prior
  /\ updateTarget c (exec c st).2 = Some updated.
Proof.
  destruct c; try discriminate; cbn [exec updateTarget];
    unfold returning; cbn [fst snd]; intros Hstored Hret.
  - destruct (updateUser time userId payload st).1 as [user|] eqn:Hupdate;
      [|discriminate].
    injection Hret as <-.
    apply updateUser_Ret in Hupdate as (prior' & Hprior & _ & _ & -> & ->).
    rewrite Hprior in Hstored. injection Hstored as <-.
    repeat split. unfold getUser, StableBTreeMap.get. simpl.
    by rewrite lookup_insert_eq.
  - destruct (updateOutcome time id payload st).1 as [outcome|] eqn:Hupdate;
      [|discriminate].
    injection Hret as <-.
    apply updateOutcome_Ret in Hupdate as (prior' & Hprior & _ & _ & -> & ->).
    rewrite Hprior in Hstored. injection Hstored as <-.
    repeat split. unfold getOutcome, StableBTreeMap.get. simpl.
    by rewrite lookup_insert_eq.
  - rewrite updateCourse_guards in Hret. discriminate.
Qed.

(** C9, at Ada's record: a change of name, pseudo and avatar succeeds and
    keeps [id] and [createdAt]. *)
Lemma update_keeps_id_and_createdAt_witness :
  let c := UpdateUser Scenario.later Scenario.u1 Scenario.rename in
  updateTarget c Scenario.st = Some (VUser Scenario.adaRecord)
  /\ (exec c Scenario.st).1 = Ret (VUser Scenario.adaRenamed)
  /\ valueId (VUser Scenario.adaRenamed) = valueId (VUser Scenario.adaRecord)
  /\ valueCreatedAt (VUser Scenario.adaRenamed)
     = valueCreatedAt (VUser Scenario.adaRecord)
  /\ updateTarget c (exec c Scenario.st).2 = Some (VUser Scenario.adaRenamed).
Proof.
  intros c. split; [vm_compute; reflexivity|].
  split; [vm_compute; reflexivity|].
  apply (update_keeps_id_and_createdAt c Scenario.st);
    vm_compute; reflexivity.
Defined.

(** C8, at a second registration under Ada's pseudo: the call returns a
    message and the store is the one before. *)
Lemma exec_error_stores_nothing_witness :
  let c := AddUser (Js.lit "u2") Scenario.later Scenario.keepPseudo in
  isErr (exec c Scenario.st).1 = true /\ (exec c Scenario.st).2 = Scenario.st.
Proof.
  intros c. split; [vm_compute; reflexivity|].
  apply (exec_error_stores_nothing c Scenario.st). vm_compute; reflexivity.
Defined.

(** ** updateCourse, as written *)

(** C10: for every id and payload, [updateCourse] returns a message and
    leaves the store as it was: the not-found message when a course is stored
    under the id, the unexpected-values message when none is; the two
    messages differ, and no call returns a course. *)
Theorem updateCourse_only_returns_messages
    (time : N) (id : str) (payload : CoursePayload) (st : Store) :
  updateCourse time id payload st
  = (Err (match coursesStorage st !! id with
          | Some _ => CourseMsg.notFound id
          | None => CourseMsg.invalid
          end), st)
  /\ CourseMsg.notFound id <> CourseMsg.invalid.
Proof.
  split; [|discriminate].
  unfold updateCourse, checkCourseId.
  destruct (coursesStorage st !! id) as [course|] eqn:Hid.
  - assert (StableBTreeMap.containsKey (coursesStorage st) id = true) as ->
      by (apply containsKey_true; eauto).
    reflexivity.
  - assert (StableBTreeMap.containsKey (coursesStorage st) id = false) as ->
      by (by apply containsKey_false).
    reflexivity.
Qed.

(** C1: on the stored course [c1], [updateCourse] answers that no course
    with that id is found; on an id under which nothing is stored it answers
    with the unexpected-values message instead. *)
Theorem updateCourse_not_found_for_stored_course :
  getCourse Scenario.st Scenario.c1 = Some Scenario.introRecord
  /\ updateCourse Scenario.later Scenario.c1 Scenario.retitle Scenario.st
     = (Err (CourseMsg.notFound Scenario.c1), Scenario.st)
  /\ getCourse Scenario.st Scenario.ghost = None
  /\ updateCourse Scenario.later Scenario.ghost Scenario.retitle Scenario.st
     = (Err CourseMsg.invalid, Scenario.st).
Proof. repeat split; vm_compute; reflexivity. Qed.

(** C2: the course [c1] is stored, the payload passes [checkCoursePayload]
    and its title is no stored course's, and still [updateCourse] returns a
    message and the stored course is the one before, title and [updatedAt]
    included. *)
Theorem updateCourse_rejects_valid_update :
  checkCourseId Scenario.st Scenario.c1 = true
  /\ checkCoursePayload Scenario.st Scenario.retitle = true
  /\ isExistingCourseTitle Scenario.st (cp_title Scenario.retitle) = false
  /\ isErr (updateCourse Scenario.later Scenario.c1 Scenario.retitle
              Scenario.st).1 = true
  /\ getCourse (updateCourse Scenario.later Scenario.c1 Scenario.retitle
                  Scenario.st).2 Scenario.c1
     = Some Scenario.introRecord.
Proof. repeat split; vm_compute; reflexivity. Qed.

(** ** updateUser and updateOutcome, on a stored record *)

Lemma updateUser_success time userId payload st prior :
  getUser st userId = Some prior ->
  checkPayload payload = true ->
  checkPseudo st (up_pseudo payload) = false ->
  let updated := {| user_id := user_id prior;
                    user_name := up_name payload;
                    user_pseudo := up_pseudo payload;
                    user_avatarURL := up_avatarURL payload;
                    user_createdAt := user_createdAt prior;
                    user_updatedAt := Some (getCurrentDate time) |} in
  updateUser time userId payload st
  = (Ret updated, setUsers (<[userId := updated]> (usersStorage st)) st).
Proof.
  intros Hprior Hvalid Hfree. unfold updateUser.
  assert (checkUserId st userId = true) as ->
    by (apply containsKey_true; unfold getUser in Hprior; eauto).
  by rewrite Hfree, Hvalid, Hprior.
Qed.

Lemma updateOutcome_success time id payload st prior :
  getOutcome st id = Some prior ->
  checkOutcomePayload payload = true ->
  isExistingOutcomeTitle st (op_title payload) = false
  \/ outcome_title prior = op_title payload ->
  let updated := {| outcome_id := outcome_id prior;
                    outcome_title := op_title payload;
                    outcome_type := op_type payload;
                    outcome_createdAt := outcome_createdAt prior;
                    outcome_updatedAt := Some (getCurrentDate time) |} in
  updateOutcome time id payload st
  = (Ret updated,
     setOutcomes (<[id := updated]> (outcomesStorage st)) st).
Proof.
  intros Hprior Hvalid Htitle. unfold updateOutcome.
  assert (chetOutcomeId st id = true) as ->
    by (apply containsKey_true; unfold getOutcome in Hprior; eauto).
  unfold getOutcome in Hprior. rewrite Hvalid, Hprior. simpl.
  destruct Htitle as [-> | Hown]; [done|].
  apply Js_eqb_true in Hown. rewrite Hown. simpl.
  by rewrite andb_false_r.
Qed.

(** An outcome may keep its title: the scan finds the outcome itself, and the
    comparison with its own title lets the update through. *)
Lemma updateOutcome_own_title time id payload st prior :
  getOutcome st id = Some prior ->
  checkOutcomePayload payload = true ->
  op_title payload = outcome_title prior ->
  isErr (updateOutcome time id payload st).1 = false.
Proof.
  intros Hprior Hvalid Hown.
  by rewrite (updateOutcome_success time id payload st prior) by auto.
Qed.

(** A user may not: the scan of [checkPseudo] finds the user itself. *)
Lemma updateUser_own_pseudo time userId payload st prior :
  getUser st userId = Some prior ->
  Js.trim (up_pseudo payload) = Js.trim (user_pseudo prior) ->
  updateUser time userId payload st
  = (Err (UserMsg.updateDuplicate payload), st).
Proof.
  intros Hprior Hown. unfold updateUser.
  assert (checkUserId st userId = true) as ->
    by (apply containsKey_true; unfold getUser in Hprior; eauto).
  assert (checkPseudo st (up_pseudo payload) = true) as ->; [|done].
  apply (scan_trim_true user_pseudo). exists userId, prior. auto.
Qed.

(** C4: Ada, stored with the pseudo "ada99", sends an update that keeps
    that pseudo; [updateUser] answers that the pseudo already exists and
    stores nothing, where [updateOutcome] accepts an update that keeps the
    outcome's title. *)
Theorem updateUser_rejects_own_pseudo :
  getUser Scenario.st Scenario.u1 = Some Scenario.adaRecord
  /\ up_pseudo Scenario.keepPseudo = user_pseudo Scenario.adaRecord
  /\ checkPayload Scenario.keepPseudo = true
  /\ updateUser Scenario.later Scenario.u1 Scenario.keepPseudo Scenario.st
     = (Err (UserMsg.updateDuplicate Scenario.keepPseudo), Scenario.st)
  /\ isErr (updateOutcome Scenario.later Scenario.o1 Scenario.keepTitle
              Scenario.st).1 = false.
Proof. repeat split; vm_compute; reflexivity. Qed.

(** ** Blank fields *)

Lemma checkOutcomePayload_blank payload :
  Js.trim (op_title payload) = [] -> checkOutcomePayload payload = false.
Proof. intros Hblank. unfold checkOutcomePayload. by rewrite Hblank. Qed.

Lemma checkPayload_short payload :
  Js.length (Js.trim (up_name payload))
  + Js.length (Js.trim (up_pseudo payload)) <= 2 ->
  checkPayload payload = false.
Proof. intros Hshort. unfold checkPayload. by apply N.ltb_ge. Qed.

(** The title test of [checkCoursePayload] holds of every title. *)
Lemma checkCoursePayload_references st payload :
  checkCoursePayload st payload = true
  <-> is_Some (usersStorage st !! cp_creatorId payload)
      /\ forall id, id ∈ cp_outcomes payload ->
                    is_Some (outcomesStorage st !! id).
Proof.
  unfold checkCoursePayload.
  assert ((0 <=? Js.length (Js.trim (cp_title payload))) = true) as ->
    by (apply N.leb_le, N.le_0_l).
  simpl. unfold checkUserId, chetOutcomeId.
  destruct (StableBTreeMap.containsKey (usersStorage st) _) eqn:Hcreator.
  - apply containsKey_true in Hcreator.
    rewrite forallb_forall. split.
    + intros Hall. split; [done|]. intros id Hid.
      apply containsKey_true, Hall, list_elem_of_In, Hid.
    + intros [_ Hall] id Hid.
      apply containsKey_true, Hall, list_elem_of_In, Hid.
  - apply containsKey_false in Hcreator. split; [discriminate|].
    intros [[user Huser] _]. congruence.
Qed.

(** What the two other checks reject: [addOutcome] every payload whose title
    is blank once trimmed, [addUser] every payload whose trimmed name and
    trimmed pseudo have two characters or fewer between them (both blank, for
    one); each returns its invalid-payload message and leaves the store as it
    was. *)
Lemma add_rejects_blank_payloads (uuid : str) (time : N) (st : Store) :
  (forall payload : OutcomePayload,
      Js.trim (op_title payload) = [] ->
      addOutcome uuid time payload st = (Err OutcomeMsg.invalid, st))
  /\ (forall payload : UserPayload,
      Js.length (Js.trim (up_name payload))
      + Js.length (Js.trim (up_pseudo payload)) <= 2 ->
      addUser uuid time payload st = (Err (UserMsg.addInvalid payload), st)).
Proof.
  split; intros payload Hblank.
  - unfold addOutcome. by rewrite checkOutcomePayload_blank.
  - unfold addUser. by rewrite checkPayload_short.
Qed.

(** An outcome whose title is three spaces, and a user whose name is two
    spaces and whose pseudo is one letter between spaces. *)
Example add_rejects_blank_payloads_example :
  (Js.trim (op_title Scenario.blankOutcome) = []
   /\ addOutcome (Js.lit "o2") Scenario.later Scenario.blankOutcome Scenario.st
      = (Err OutcomeMsg.invalid, Scenario.st))
  /\ (Js.length (Js.trim (up_name Scenario.blankUser))
      + Js.length (Js.trim (up_pseudo Scenario.blankUser)) <= 2
      /\ addUser (Js.lit "u2") Scenario.later Scenario.blankUser Scenario.st
         = (Err (UserMsg.addInvalid Scenario.blankUser), Scenario.st)).
Proof.
  split; (split; [vm_compute; try reflexivity; discriminate|]).
  - apply (proj1 (add_rejects_blank_payloads (Js.lit "o2") Scenario.later
                    Scenario.st)).
    vm_compute; reflexivity.
  - apply (proj2 (add_rejects_blank_payloads (Js.lit "u2") Scenario.later
                    Scenario.st)).
    vm_compute; discriminate.
Defined.

(** C5: a course payload whose title is three spaces, with a stored creator,
    is accepted by [addCourse] and stored (the title test of
    [checkCoursePayload] is [length >= 0]); a user payload whose name is the
    empty string is accepted by [addUser] and stored (the test of
    [checkPayload] adds the two lengths). *)
Theorem add_accepts_blank_fields :
  (Js.trim (cp_title Scenario.blankCourse) = []
   /\ (addCourse (Js.lit "c2") Scenario.later Scenario.blankCourse
         Scenario.st).1 = Ret Scenario.blankCourseRecord
   /\ getCourse (addCourse (Js.lit "c2") Scenario.later Scenario.blankCourse
                   Scenario.st).2 (Js.lit "c2")
      = Some Scenario.blankCourseRecord)
  /\ (Js.trim (up_name Scenario.nameless) = []
      /\ (addUser (Js.lit "u2") Scenario.later Scenario.nameless
            Scenario.st).1 = Ret Scenario.namelessRecord
      /\ getUser (addUser (Js.lit "u2") Scenario.later Scenario.nameless
                    Scenario.st).2 (Js.lit "u2")
         = Some Scenario.namelessRecord).
Proof. repeat split; vm_compute; reflexivity. Qed.

(** ** References of a course *)

Lemma checkCoursePayload_dangling st payload :
  usersStorage st !! cp_creatorId payload = None
  \/ (exists id, id ∈ cp_outcomes payload /\ outcomesStorage st !! id = None) ->
  checkCoursePayload st payload = false.
Proof.
  intros Hdangling.
  destruct (checkCoursePayload st payload) eqn:Hcheck; [|done].
  apply checkCoursePayload_references in Hcheck as [[user Huser] Hall].
  destruct Hdangling as [Hcreator | (id & Hid & Hnone)]; [congruence|].
  destruct (Hall id Hid) as [outcome Houtcome]. congruence.
Qed.

(** C7, as the code has it: when the payload's [creatorId] is not the id of a
    stored user, or some element of its [outcomes] is not the id of a stored
    outcome, [addCourse] returns a message and leaves the store as it was;
    the message is the unexpected-values one when no stored course has the
    payload's trimmed title, and the already-exists one when some has. *)
Theorem addCourse_rejects_dangling_references
    (uuid : str) (time : N) (payload : CoursePayload) (st : Store) :
  usersStorage st !! cp_creatorId payload = None
  \/ (exists id, id ∈ cp_outcomes payload /\ outcomesStorage st !! id = None) ->
  addCourse uuid time payload st
  = (Err (if isExistingCourseTitle st (cp_title payload)
          then CourseMsg.duplicate payload
          else CourseMsg.invalid), st).
Proof.
  intros Hdangling. unfold addCourse.
  destruct (isExistingCourseTitle st (cp_title payload)); [done|].
  by rewrite checkCoursePayload_dangling.
Qed.

(** C7, at the course "Adv" whose one outcome is stored nowhere. *)
Lemma addCourse_rejects_dangling_references_witness :
  (usersStorage Scenario.st !! cp_creatorId Scenario.dangling = None
   \/ (exists id, id ∈ cp_outcomes Scenario.dangling
                  /\ outcomesStorage Scenario.st !! id = None))
  /\ addCourse (Js.lit "c2") Scenario.later Scenario.dangling Scenario.st
     = (Err CourseMsg.invalid, Scenario.st).
Proof.
  assert (usersStorage Scenario.st !! cp_creatorId Scenario.dangling = None
          \/ (exists id, id ∈ cp_outcomes Scenario.dangling
                         /\ outcomesStorage Scenario.st !! id = None))
    as Hdangling.
  { right. exists Scenario.ghost. split; [by left|]. vm_compute; reflexivity. }
  split; [exact Hdangling|].
  exact (addCourse_rejects_dangling_references (Js.lit "c2") Scenario.later
           Scenario.dangling Scenario.st Hdangling).
Defined.

(** C7, as stated, fails: the creator of the payload is stored nowhere, and
    [addCourse] answers that the course already exists, which is not the
    unexpected-values message. *)
Lemma addCourse_duplicate_before_references :
  usersStorage Scenario.st !! cp_creatorId Scenario.danglingDuplicate = None
  /\ addCourse (Js.lit "c2") Scenario.later Scenario.danglingDuplicate
       Scenario.st
     = (Err (CourseMsg.duplicate Scenario.danglingDuplicate), Scenario.st)
  /\ CourseMsg.duplicate Scenario.danglingDuplicate <> CourseMsg.invalid.
Proof. repeat split; try (vm_compute; reflexivity). discriminate. Qed.

(** ** The history, step by step *)

Example trim_strips_both_ends :
  Js.trim (Js.lit "  ada 99 ") = Js.lit "ada 99"
  /\ Js.trim (9 :: 160 :: 8232 :: Js.lit "x" ++ [65279; 12288]) = Js.lit "x".
Proof. split; reflexivity. Qed.

Example history_stores_three_records :
  getUsers Scenario.st = [Scenario.adaRecord]
  /\ getCourses Scenario.st = [Scenario.introRecord]
  /\ length (getOutcomes Scenario.st) = 1%nat.
Proof. repeat split; vm_compute; reflexivity. Qed.

(** A second user under Ada's pseudo, spaces around it or not, is refused; so
    is a second course titled "Intro". *)
Example duplicates_are_refused :
  (addUser (Js.lit "u2") Scenario.later
     (mkUserPayload (Js.lit "Bea") (Js.lit " ada99 ") (Js.lit "y"))
     Scenario.st).1
  = Err (Js.lit "Error: can't create user cause  ada99  already exists")
  /\ (addCourse (Js.lit "c2") Scenario.later
        (mkCoursePayload (Js.lit "Intro") [] Scenario.u1) Scenario.st).1
     = Err (Js.lit "Error: course 'Intro' already exists").
Proof. split; vm_compute; reflexivity. Qed.

Example rename_is_stored :
  updateUser Scenario.later Scenario.u1 Scenario.rename Scenario.st
  = (Ret Scenario.adaRenamed,
     setUsers {[ Scenario.u1 := Scenario.adaRenamed ]} Scenario.st).
Proof. vm_compute; reflexivity. Qed.

(** * Further properties of the registries *)

(** ** What add accepts and returns *)

Lemma addUser_Ret uuid time payload st user :
  (addUser uuid time payload st).1 = Ret user ->
  checkPayload payload = true
  /\ checkPseudo st (up_pseudo payload) = false
  /\ user = {| user_id := uuid;
               user_name := up_name payload;
               user_pseudo := up_pseudo payload;
               user_avatarURL := up_avatarURL payload;
               user_createdAt := getCurrentDate time;
               user_updatedAt := None |}
  /\ (addUser uuid time payload st).2
     = setUsers (<[uuid := user]> (usersStorage st)) st.
Proof.
  unfold addUser. destruct (checkPayload payload); [|discriminate]. simpl.
  destruct (checkPseudo st (up_pseudo payload)); [discriminate|]. simpl.
  by intros [= <-].
Qed.

Lemma addOutcome_Ret uuid time payload st outcome :
  (addOutcome uuid time payload st).1 = Ret outcome ->
  checkOutcomePayload payload = true
  /\ isExistingOutcomeTitle st (op_title payload) = false
  /\ outcome = {| outcome_id := uuid;
                  outcome_title := op_title payload;
                  outcome_type := op_type payload;
                  outcome_createdAt := getCurrentDate time;
                  outcome_updatedAt := None |}
  /\ (addOutcome uuid time payload st).2
     = setOutcomes (<[uuid := outcome]> (outcomesStorage st)) st.
Proof.
  unfold addOutcome.
  destruct (checkOutcomePayload payload); [|discriminate]. simpl.
  destruct (isExistingOutcomeTitle st (op_title payload)); [discriminate|].
  simpl. by intros [= <-].
Qed.

Lemma addCourse_Ret uuid time payload st course :
  (addCourse uuid time payload st).1 = Ret course ->
  isExistingCourseTitle st (cp_title payload) = false
  /\ checkCoursePayload st payload = true
  /\ course = {| course_id := uuid;
                 course_title := cp_title payload;
                 course_outcomes := cp_outcomes payload;
                 course_creatorId := cp_creatorId payload;
                 course_createdAt := getCurrentDate time;
                 course_updatedAt := None |}
  /\ (addCourse uuid time payload st).2
     = setCourses (<[uuid := course]> (coursesStorage st)) st.
Proof.
  unfold addCourse.
  destruct (isExistingCourseTitle st (cp_title payload)); [discriminate|].
  simpl. destruct (checkCoursePayload st payload); [|discriminate]. simpl.
  by intros [= <-].
Qed.

Lemma Js_length_pos s : (0 <? Js.length s) = true <-> s <> [].
Proof.
  unfold Js.length. rewrite N.ltb_lt.
  destruct s; simpl; split; intros; try done; lia.
Qed.

(** X1: [addUser] returns a user exactly when the trimmed name and the
    trimmed pseudo of the payload have more than two characters between them
    and no stored user has the payload's pseudo up to trimming; the user it
    returns has the generated id, the payload's three fields, the current
    date as [createdAt] and no [updatedAt]. *)
Theorem addUser_returns_user_iff
    (uuid : str) (time : N) (payload : UserPayload) (st : Store)
    (user : User) :
  (addUser uuid time payload st).1 = Ret user
  <-> 2 < Js.length (Js.trim (up_name payload))
          + Js.length (Js.trim (up_pseudo payload))
      /\ (forall k stored,
             usersStorage st !! k = Some stored ->
             Js.trim (user_pseudo stored) <> Js.trim (up_pseudo payload))
      /\ user = mkUser uuid (up_name payload) (up_pseudo payload)
                  (up_avatarURL payload) (getCurrentDate time) None.
Proof.
  split.
  - intros Hret. apply addUser_Ret in Hret as (Hvalid & Hfree & -> & _).
    split; [by apply N.ltb_lt|]. split; [|done].
    by apply (scan_trim_false user_pseudo).
  - intros (Hvalid & Hfree & ->). unfold addUser.
    assert (checkPayload payload = true) as -> by (by apply N.ltb_lt).
    assert (checkPseudo st (up_pseudo payload) = false) as ->
      by (by apply (scan_trim_false user_pseudo)).
    reflexivity.
Qed.

(** X2: [addOutcome] returns an outcome exactly when the payload's title is
    not blank once trimmed, its type is not null and no stored outcome has the
    payload's title up to trimming; the outcome it returns has the generated
    id, the payload's title and type, the current date as [createdAt] and no
    [updatedAt]. *)
Theorem addOutcome_returns_outcome_iff
    (uuid : str) (time : N) (payload : OutcomePayload) (st : Store)
    (outcome : Outcome) :
  (addOutcome uuid time payload st).1 = Ret outcome
  <-> Js.trim (op_title payload) <> []
      /\ op_type payload <> None
      /\ (forall k stored,
             outcomesStorage st !! k = Some stored ->
             Js.trim (outcome_title stored) <> Js.trim (op_title payload))
      /\ outcome = mkOutcome uuid (op_title payload) (op_type payload)
                     (getCurrentDate time) None.
Proof.
  split.
  - intros Hret. apply addOutcome_Ret in Hret as (Hvalid & Hfree & -> & _).
    unfold checkOutcomePayload in Hvalid.
    apply andb_true_iff in Hvalid as [Htitle Htype].
    split; [by apply Js_length_pos|].
    split; [by apply bool_decide_eq_true in Htype|]. split; [|done].
    by apply (scan_trim_false outcome_title).
  - intros (Htitle & Htype & Hfree & ->). unfold addOutcome.
    assert (checkOutcomePayload payload = true) as ->.
    { unfold checkOutcomePayload. apply andb_true_iff. split.
      - by apply Js_length_pos.
      - by apply bool_decide_eq_true. }
    assert (isExistingOutcomeTitle st (op_title payload) = false) as ->
      by (by apply (scan_trim_false outcome_title)).
    reflexivity.
Qed.

(** X3: [addCourse] returns a course exactly when no stored course has the
    payload's title up to trimming, the payload's [creatorId] is the key of a
    stored user and every element of its [outcomes] is the key of a stored
    outcome; the title itself may be anything, blank included.  The course it
    returns has the generated id, the payload's three fields, the current
    date as [createdAt] and no [updatedAt]. *)
Theorem addCourse_returns_course_iff
    (uuid : str) (time : N) (payload : CoursePayload) (st : Store)
    (course : Course) :
  (addCourse uuid time payload st).1 = Ret course
  <-> (forall k stored,
          coursesStorage st !! k = Some stored ->
          Js.trim (course_title stored) <> Js.trim (cp_title payload))
      /\ is_Some (usersStorage st !! cp_creatorId payload)
      /\ (forall id, id ∈ cp_outcomes payload ->
                     is_Some (outcomesStorage st !! id))
      /\ course = mkCourse uuid (cp_title payload) (cp_outcomes payload)
                    (cp_creatorId payload) (getCurrentDate time) None.
Proof.
  split.
  - intros Hret. apply addCourse_Ret in Hret as (Hfree & Hrefs & -> & _).
    apply checkCoursePayload_references in Hrefs as [Hcreator Houtcomes].
    split; [by apply (scan_trim_false course_title)|]. done.
  - intros (Hfree & Hcreator & Houtcomes & ->). unfold addCourse.
    assert (isExistingCourseTitle st (cp_title payload) = false) as ->
      by (by apply (scan_trim_false course_title)).
    assert (checkCoursePayload st payload = true) as ->
      by (by apply checkCoursePayload_references).
    reflexivity.
Qed.

(** ** One entry at most *)

Lemma lookupValue_setUsers r m st k :
  r <> Users \/ m !! k = usersStorage st !! k ->
  lookupValue r (setUsers m st) k = lookupValue r st k.
Proof.
  destruct r; simpl; try done.
  unfold getUser, StableBTreeMap.get. simpl. by intros [?| ->].
Qed.

Lemma lookupValue_setOutcomes r m st k :
  r <> Outcomes \/ m !! k = outcomesStorage st !! k ->
  lookupValue r (setOutcomes m st) k = lookupValue r st k.
Proof.
  destruct r; simpl; try done.
  unfold getOutcome, StableBTreeMap.get. simpl. by intros [?| ->].
Qed.

Lemma lookupValue_setCourses r m st k :
  r <> Courses \/ m !! k = coursesStorage st !! k ->
  lookupValue r (setCourses m st) k = lookupValue r st k.
Proof.
  destruct r; simpl; try done.
  unfold getCourse, StableBTreeMap.get. simpl. by intros [?| ->].
Qed.

(** Closes a goal on the store a call leaves when that store is the store
    before, or the store before with one map changed at the call's key. *)
Ltac frame_of_call Hother :=
  repeat case_match; simplify_eq; cbn [fst snd]; try done;
  first [ apply lookupValue_setUsers
        | apply lookupValue_setOutcomes
        | apply lookupValue_setCourses ];
  (destruct Hother as [Hreg | Hkey]; [by left | right]);
  unfold StableBTreeMap.insert;
  first [ by rewrite lookup_insert_ne | by rewrite lookup_delete_ne ].

(** X4: a call changes at most one entry: in every registry other than the
    call's, and under every key other than the call's (the generated id of an
    add, the id argument of an update or a remove), what [getUser],
    [getOutcome] and [getCourse] find is what they found before the call. *)
Theorem exec_changes_one_entry_at_most
    (c : call) (st : Store) (r : registry) (k : str) :
  r <> callRegistry c \/ k <> callKey c ->
  lookupValue r (exec c st).2 k = lookupValue r st k.
Proof.
  intros Hother.
  destruct c; cbn [exec callRegistry callKey] in *; unfold returning;
    cbn [snd].
  - unfold addUser. frame_of_call Hother.
  - unfold updateUser. frame_of_call Hother.
  - unfold removeUser, StableBTreeMap.remove. frame_of_call Hother.
  - unfold addOutcome. frame_of_call Hother.
  - unfold updateOutcome. frame_of_call Hother.
  - unfold removeOutcome, StableBTreeMap.remove. frame_of_call Hother.
  - unfold addCourse. frame_of_call Hother.
  - by rewrite updateCourse_guards.
  - unfold removeCourse, StableBTreeMap.remove. frame_of_call Hother.
Qed.

(** X4, at the creation of a second course: Ada's record and the first
    course are found as before. *)
Lemma exec_changes_one_entry_at_most_witness :
  let c := AddCourse (Js.lit "c2") Scenario.later
             (mkCoursePayload (Js.lit "Adv") [] Scenario.u1) in
  lookupValue Users (exec c Scenario.st).2 Scenario.u1
  = lookupValue Users Scenario.st Scenario.u1
  /\ lookupValue Courses (exec c Scenario.st).2 Scenario.c1
     = lookupValue Courses Scenario.st Scenario.c1.
Proof.
  intros c. split.
  - apply (exec_changes_one_entry_at_most c Scenario.st Users Scenario.u1).
    left. discriminate.
  - apply (exec_changes_one_entry_at_most c Scenario.st Courses Scenario.c1).
    right. discriminate.
Defined.

(** ** add, then get *)

(** X5: when an add call ([addUser], [addOutcome] or [addCourse]) returns a
    record, that record carries the generated id, and it is what the get of
    its registry finds under that id after the call. *)
Theorem add_then_get (c : call) (st : Store) (v : value) :
  isAdd c = true ->
  (exec c st).1 = Ret v ->
  valueId v = Some (callKey c)
  /\ lookupValue (callRegistry c) (exec c st).2 (callKey c) = Some v.
Proof.
  destruct c; try discriminate; intros _;
    cbn [exec callRegistry callKey]; unfold returning; cbn [fst snd];
    intros Hret.
  - destruct (addUser uuid time payload st).1 as [user|] eqn:Hadd;
      [|discriminate].
    injection Hret as <-.
    apply addUser_Ret in Hadd as (_ & _ & -> & ->).
    split; [done|]. unfold lookupValue, getUser, StableBTreeMap.get. simpl.
    by rewrite lookup_insert_eq.
  - destruct (addOutcome uuid time payload st).1 as [outcome|] eqn:Hadd;
      [|discriminate].
    injection Hret as <-.
    apply addOutcome_Ret in Hadd as (_ & _ & -> & ->).
    split; [done|]. unfold lookupValue, getOutcome, StableBTreeMap.get. simpl.
    by rewrite lookup_insert_eq.
  - destruct (addCourse uuid time payload st).1 as [course|] eqn:Hadd;
      [|discriminate].
    injection Hret as <-.
    apply addCourse_Ret in Hadd as (_ & _ & -> & ->).
    split; [done|]. unfold lookupValue, getCourse, StableBTreeMap.get. simpl.
    by rewrite lookup_insert_eq.
Qed.

(** X5, at the registration of Bea. *)
Lemma add_then_get_witness :
  let c := AddUser (Js.lit "u2") Scenario.later
             (mkUserPayload (Js.lit "Bea") (Js.lit "bea42") (Js.lit "z")) in
  let bea := VUser (mkUser (Js.lit "u2") (Js.lit "Bea") (Js.lit "bea42")
                      (Js.lit "z") 4000 None) in
  (exec c Scenario.st).1 = Ret bea
  /\ valueId bea = Some (callKey c)
  /\ lookupValue (callRegistry c) (exec c Scenario.st).2 (callKey c)
     = Some bea.
Proof.
  intros c bea. split; [vm_compute; reflexivity|].
  apply (add_then_get c Scenario.st bea); vm_compute; reflexivity.
Defined.

(** X6: when [addCourse] returns a course, the creator and every outcome of
    that course are stored in the store the call leaves. *)
Theorem addCourse_references_are_stored
    (uuid : str) (time : N) (payload : CoursePayload) (st : Store)
    (course : Course) :
  (addCourse uuid time payload st).1 = Ret course ->
  let st' := (addCourse uuid time payload st).2 in
  checkUserId st' (course_creatorId course) = true
  /\ forall id, id ∈ course_outcomes course -> chetOutcomeId st' id = true.
Proof.
  intros Hret st'. subst st'.
  apply addCourse_Ret in Hret as (_ & Hrefs & -> & ->).
  apply checkCoursePayload_references in Hrefs as [Hcreator Houtcomes].
  simpl. split.
  - by apply containsKey_true.
  - intros id Hid. by apply containsKey_true, Houtcomes.
Qed.

(** X6, at the course "Adv" with Ada as creator and the stored outcome. *)
Lemma addCourse_references_are_stored_witness :
  let payload := mkCoursePayload (Js.lit "Adv") [Scenario.o1] Scenario.u1 in
  let course := mkCourse (Js.lit "c2") (Js.lit "Adv") [Scenario.o1]
                  Scenario.u1 4000 None in
  let st' := (addCourse (Js.lit "c2") Scenario.later payload Scenario.st).2 in
  (addCourse (Js.lit "c2") Scenario.later payload Scenario.st).1 = Ret course
  /\ checkUserId st' (course_creatorId course) = true
  /\ forall id, id ∈ course_outcomes course -> chetOutcomeId st' id = true.
Proof.
  intros payload course st'. split; [vm_compute; reflexivity|].
  apply (addCourse_references_are_stored (Js.lit "c2") Scenario.later payload
           Scenario.st course).
  vm_compute; reflexivity.
Defined.

(** ** What update accepts and returns *)

(** X7: [updateUser] returns a user exactly when a user is stored under the
    id, no stored user at all (the one being updated included) has the
    payload's pseudo up to trimming, and the trimmed name and pseudo of the
    payload have more than two characters between them; the user it returns
    has the three fields of the payload, the id and [createdAt] of the
    stored user, and the current date as [updatedAt]. *)
Theorem updateUser_returns_user_iff
    (time : N) (userId : str) (payload : UserPayload) (st : Store)
    (updated : User) :
  (updateUser time userId payload st).1 = Ret updated
  <-> exists prior,
        usersStorage st !! userId = Some prior
        /\ (forall k stored,
               usersStorage st !! k = Some stored ->
               Js.trim (user_pseudo stored) <> Js.trim (up_pseudo payload))
        /\ 2 < Js.length (Js.trim (up_name payload))
               + Js.length (Js.trim (up_pseudo payload))
        /\ updated = mkUser (user_id prior) (up_name payload)
                       (up_pseudo payload) (up_avatarURL payload)
                       (user_createdAt prior) (Some (getCurrentDate time)).
Proof.
  split.
  - intros Hret.
    apply updateUser_Ret in Hret as (prior & Hprior & Hfree & Hvalid & -> & _).
    exists prior. split; [done|].
    split; [by apply (scan_trim_false user_pseudo)|].
    split; [by apply N.ltb_lt|done].
  - intros (prior & Hprior & Hfree & Hvalid & ->).
    rewrite (updateUser_success time userId payload st prior); try done.
    + by apply N.ltb_lt.
    + by apply (scan_trim_false user_pseudo).
Qed.

(** X8: [updateOutcome] returns an outcome exactly when an outcome is stored
    under the id, the payload's title is not blank once trimmed, its type is
    not null, and either no stored outcome has the payload's title up to
    trimming or the payload's title is, character for character, the title
    of the stored outcome; the outcome it returns has the title and type of
    the payload, the id and [createdAt] of the stored outcome, and the
    current date as [updatedAt]. *)
Theorem updateOutcome_returns_outcome_iff
    (time : N) (id : str) (payload : OutcomePayload) (st : Store)
    (updated : Outcome) :
  (updateOutcome time id payload st).1 = Ret updated
  <-> exists prior,
        outcomesStorage st !! id = Some prior
        /\ Js.trim (op_title payload) <> []
        /\ op_type payload <> None
        /\ ((forall k stored,
                outcomesStorage st !! k = Some stored ->
                Js.trim (outcome_title stored) <> Js.trim (op_title payload))
            \/ outcome_title prior = op_title payload)
        /\ updated = mkOutcome (outcome_id prior) (op_title payload)
                       (op_type payload) (outcome_createdAt prior)
                       (Some (getCurrentDate time)).
Proof.
  split.
  - intros Hret.
    apply updateOutcome_Ret in Hret
      as (prior & Hprior & Hvalid & Htitle & -> & _).
    unfold checkOutcomePayload in Hvalid.
    apply andb_true_iff in Hvalid as [Hnonblank Htype].
    exists prior. split; [done|]. split; [by apply Js_length_pos|].
    split; [by apply bool_decide_eq_true in Htype|]. split; [|done].
    destruct Htitle as [Hfree|Hown]; [left|by right].
    by apply (scan_trim_false outcome_title).
  - intros (prior & Hprior & Hnonblank & Htype & Htitle & ->).
    rewrite (updateOutcome_success time id payload st prior); try done.
    + unfold checkOutcomePayload. apply andb_true_iff. split.
      * by apply Js_length_pos.
      * by apply bool_decide_eq_true.
    + destruct Htitle as [Hfree|Hown]; [left|by right].
      by apply (scan_trim_false outcome_title).
Qed.

(** X9: an update that changes the title of a stored outcome only in the
    white space around it is refused as a duplicate: the scan compares
    trimmed titles and finds the outcome itself, and the comparison that
    lets an outcome keep its title is on untrimmed titles. *)
Theorem updateOutcome_refuses_respaced_title
    (time : N) (id : str) (payload : OutcomePayload) (st : Store)
    (prior : Outcome) :
  getOutcome st id = Some prior ->
  checkOutcomePayload payload = true ->
  Js.trim (op_title payload) = Js.trim (outcome_title prior) ->
  op_title payload <> outcome_title prior ->
  updateOutcome time id payload st = (Err (OutcomeMsg.duplicate payload), st).
Proof.
  intros Hprior Hvalid Htrim Hne. unfold updateOutcome.
  assert (chetOutcomeId st id = true) as ->
    by (apply containsKey_true; unfold getOutcome in Hprior; eauto).
  unfold getOutcome in Hprior. rewrite Hvalid, Hprior. simpl.
  assert (isExistingOutcomeTitle st (op_title payload) = true) as ->.
  { apply (scan_trim_true outcome_title). exists id, prior. auto. }
  assert (Js.eqb (outcome_title prior) (op_title payload) = false) as ->
    by (apply Js_eqb_false; congruence).
  reflexivity.
Qed.

(** X9, at the stored outcome "Rocq" and the title "Rocq " . *)
Lemma updateOutcome_refuses_respaced_title_witness :
  let payload := mkOutcomePayload (Js.lit "Rocq ") (Some SKILL) in
  let prior := mkOutcome Scenario.o1 (Js.lit "Rocq") (Some SKILL) 2000 None in
  getOutcome Scenario.st Scenario.o1 = Some prior
  /\ updateOutcome Scenario.later Scenario.o1 payload Scenario.st
     = (Err (OutcomeMsg.duplicate payload), Scenario.st).
Proof.
  intros payload prior. split; [vm_compute; reflexivity|].
  apply (updateOutcome_refuses_respaced_title Scenario.later Scenario.o1
           payload Scenario.st prior);
    try (vm_compute; reflexivity).
  discriminate.
Defined.

(** ** What remove returns and leaves *)

(** X10: [removeUser] on the key of a stored user returns that user and
    leaves nothing under the key; on any other id it returns its message and
    leaves the store as it was. *)
Theorem removeUser_returns_stored_user (userId : str) (st : Store) :
  match usersStorage st !! userId with
  | Some user =>
      (removeUser userId st).1 = Ret (Some user)
      /\ getUser (removeUser userId st).2 userId = None
      /\ checkUserId (removeUser userId st).2 userId = false
  | None => removeUser userId st = (Err (UserMsg.removeNotFound userId), st)
  end.
Proof.
  unfold removeUser, checkUserId, StableBTreeMap.remove.
  destruct (usersStorage st !! userId) as [user|] eqn:Hid.
  - assert (StableBTreeMap.containsKey (usersStorage st) userId = true) as ->
      by (apply containsKey_true; eauto).
    simpl. split; [done|].
    split; [apply lookup_delete_eq|].
    apply containsKey_false, lookup_delete_eq.
  - assert (StableBTreeMap.containsKey (usersStorage st) userId = false) as ->
      by (by apply containsKey_false).
    reflexivity.
Qed.

(** X11: [removeOutcome] on the key of a stored outcome returns that outcome
    and leaves nothing under the key; on any other id it returns its message
    and leaves the store as it was. *)
Theorem removeOutcome_returns_stored_outcome (id : str) (st : Store) :
  match outcomesStorage st !! id with
  | Some outcome =>
      (removeOutcome id st).1 = Ret (Some outcome)
      /\ getOutcome (removeOutcome id st).2 id = None
      /\ chetOutcomeId (removeOutcome id st).2 id = false
  | None => removeOutcome id st = (Err (OutcomeMsg.notFound id), st)
  end.
Proof.
  unfold removeOutcome, chetOutcomeId, StableBTreeMap.remove.
  destruct (outcomesStorage st !! id) as [outcome|] eqn:Hid.
  - assert (StableBTreeMap.containsKey (outcomesStorage st) id = true) as ->
      by (apply containsKey_true; eauto).
    simpl. split; [done|].
    split; [apply lookup_delete_eq|].
    apply containsKey_false, lookup_delete_eq.
  - assert (StableBTreeMap.containsKey (outcomesStorage st) id = false) as ->
      by (by apply containsKey_false).
    reflexivity.
Qed.

(** X12: [removeCourse] on the key of a stored course returns that course
    and leaves nothing under the key; on any other id it returns the
    no-course message and leaves the store as it was.  It never returns its
    second message, ['not found']. *)
Theorem removeCourse_returns_stored_course (id : str) (st : Store) :
  match coursesStorage st !! id with
  | Some course =>
      (removeCourse id st).1 = Ret course
      /\ getCourse (removeCourse id st).2 id = None
      /\ checkCourseId (removeCourse id st).2 id = false
  | None => removeCourse id st = (Err (CourseMsg.notFound id), st)
  end
  /\ (removeCourse id st).1 <> Err CourseMsg.removedNothing.
Proof.
  unfold removeCourse, checkCourseId, StableBTreeMap.remove.
  destruct (coursesStorage st !! id) as [course|] eqn:Hid.
  - assert (StableBTreeMap.containsKey (coursesStorage st) id = true) as ->
      by (apply containsKey_true; eauto).
    simpl. split; [|done]. split; [done|].
    split; [apply lookup_delete_eq|].
    apply containsKey_false, lookup_delete_eq.
  - assert (StableBTreeMap.containsKey (coursesStorage st) id = false) as ->
      by (by apply containsKey_false).
    split; [reflexivity|]. simpl. discriminate.
Qed.

(** ** Records are stored under their own id *)

Section KeyedBy.
Context {V : Type} (idOf : V -> str).
Implicit Types (m : gmap str V) (k : str) (v : V).

Lemma keyedBy_empty : keyedBy idOf (∅ : gmap str V).
Proof. intros k v Hk. by rewrite lookup_empty in Hk. Qed.

Lemma keyedBy_insert m k v :
  keyedBy idOf m -> idOf v = k -> keyedBy idOf (<[k := v]> m).
Proof.
  intros Hm Hv i x Hi.
  apply lookup_insert_Some in Hi as [[<- <-] | [_ Hi]]; [done|].
  by apply Hm.
Qed.

Lemma keyedBy_delete m k : keyedBy idOf m -> keyedBy idOf (delete k m).
Proof.
  intros Hm i x Hi. apply lookup_delete_Some in Hi as [_ Hi]. by apply Hm.
Qed.

End KeyedBy.

Lemma exec_keyed c st : keyed st -> keyed (exec c st).2.
Proof.
  intros (Hu & Ho & Hc).
  destruct c; cbn [exec]; unfold returning; cbn [snd].
  - destruct (addUser uuid time payload st).1 as [user|] eqn:Hadd.
    + apply addUser_Ret in Hadd as (_ & _ & -> & ->).
      split; [|done]. simpl. by apply keyedBy_insert.
    + rewrite addUser_Err by (by rewrite Hadd). done.
  - destruct (updateUser time userId payload st).1 as [user|] eqn:Hupdate.
    + apply updateUser_Ret in Hupdate as (prior & Hprior & _ & _ & -> & ->).
      split; [|done]. simpl. apply keyedBy_insert; [done|]. simpl.
      by apply Hu.
    + rewrite updateUser_Err by (by rewrite Hupdate). done.
  - unfold removeUser. destruct (checkUserId st userId); simpl; [|done].
    split; [|done]. simpl. by apply keyedBy_delete.
  - destruct (addOutcome uuid time payload st).1 as [outcome|] eqn:Hadd.
    + apply addOutcome_Ret in Hadd as (_ & _ & -> & ->).
      split; [done|]. split; [|done]. simpl. by apply keyedBy_insert.
    + rewrite addOutcome_Err by (by rewrite Hadd). done.
  - destruct (updateOutcome time id payload st).1 as [outcome|] eqn:Hupdate.
    + apply updateOutcome_Ret in Hupdate
        as (prior & Hprior & _ & _ & -> & ->).
      split; [done|]. split; [|done]. simpl.
      apply keyedBy_insert; [done|]. simpl. by apply Ho.
    + rewrite updateOutcome_Err by (by rewrite Hupdate). done.
  - unfold removeOutcome. destruct (chetOutcomeId st id); simpl; [|done].
    split; [done|]. split; [|done]. simpl. by apply keyedBy_delete.
  - destruct (addCourse uuid time payload st).1 as [course|] eqn:Hadd.
    + apply addCourse_Ret in Hadd as (_ & _ & -> & ->).
      split; [done|]. split; [done|]. simpl. by apply keyedBy_insert.
    + rewrite addCourse_Err by (by rewrite Hadd). done.
  - by rewrite updateCourse_guards.
  - unfold removeCourse. destruct (checkCourseId st id); simpl; [|done].
    split; [done|]. split; [done|]. simpl. by apply keyedBy_delete.
Qed.

Lemma run_keyed calls : forall st, keyed st -> keyed (run calls st).
Proof.
  induction calls as [|c calls IH]; intros st Hst; simpl; [done|].
  apply IH. by apply exec_keyed.
Qed.

(** X13: from the empty registries, after any sequence of add, update and
    remove calls, the [id] field of every stored user, outcome and course is
    the key it is stored under. *)
Theorem keyed_after_any_calls (calls : list call) :
  keyed (run calls emptyStore).
Proof. apply run_keyed. repeat split; apply keyedBy_empty. Qed.

(** ** The scans *)

(** X14: [checkPseudo], [isExistingOutcomeTitle] and [isExistingCourseTitle]
    answer [true] exactly when some stored record has the given pseudo or
    title up to the white space around either. *)
Theorem scans_find_trimmed_matches (st : Store) (s : str) :
  (checkPseudo st s = true
   <-> exists k user, usersStorage st !! k = Some user
                      /\ Js.trim (user_pseudo user) = Js.trim s)
  /\ (isExistingOutcomeTitle st s = true
      <-> exists k outcome, outcomesStorage st !! k = Some outcome
                            /\ Js.trim (outcome_title outcome) = Js.trim s)
  /\ (isExistingCourseTitle st s = true
      <-> exists k course, coursesStorage st !! k = Some course
                           /\ Js.trim (course_title course) = Js.trim s).
Proof.
  split; [apply (scan_trim_true user_pseudo)|].
  split; [apply (scan_trim_true outcome_title)|].
  apply (scan_trim_true course_title).
Qed.

(** X15: from the empty registries, after any sequence of calls,
    [getIdFromPseudo] returns an id exactly when the user stored under that
    id has the given pseudo, character for character; it returns null
    exactly when no stored user has it. *)
Theorem getIdFromPseudo_finds_the_user
    (calls : list call) (pseudo : str) (id : str) :
  let st := run calls emptyStore in
  (getIdFromPseudo st pseudo = Some id
   <-> exists user, getUser st id = Some user /\ user_pseudo user = pseudo)
  /\ (getIdFromPseudo st pseudo = None
      <-> forall k user, getUser st k = Some user ->
                         user_pseudo user <> pseudo).
Proof.
  intros st.
  assert (keyed st) as (Hkeyed & _) by (apply run_keyed; repeat split; apply keyedBy_empty).
  assert (uniqueness st) as (Hunique & _)
    by apply run_uniqueness, uniqueness_emptyStore.
  unfold getIdFromPseudo, getUser, StableBTreeMap.get.
  destruct (find _ _) as [found|] eqn:Hfind; simpl.
  - apply find_some in Hfind as [Hin Hfound].
    apply list_elem_of_In, elem_of_values in Hin as [k Hk].
    apply Js_eqb_true in Hfound.
    rewrite (Hkeyed k found Hk).
    split; [split|split; [discriminate|]].
    + intros [= <-]. eauto.
    + intros (user & Huser & Hpseudo). f_equal.
      apply (Hunique k id found user); congruence.
    + intros Hnone. by destruct (Hnone k found Hk).
  - split; [split; [discriminate|]|split; [|done]].
    + intros (user & Huser & Hpseudo).
      assert (In user (StableBTreeMap.values (usersStorage st))) as Hin
        by (apply list_elem_of_In, elem_of_values; eauto).
      apply (find_none _ _ Hfind) in Hin. apply Js_eqb_false in Hin. done.
    + intros _ k user Huser.
      assert (In user (StableBTreeMap.values (usersStorage st))) as Hin
        by (apply list_elem_of_In, elem_of_values; eauto).
      apply (find_none _ _ Hfind) in Hin. by apply Js_eqb_false in Hin.
Qed.

(** ** One call after another *)

(** A call that returns a message leaves the store as it was (by cases on
    the call, from the nine lemmas above). *)
Lemma exec_Err c st : isErr (exec c st).1 = true -> (exec c st).2 = st.
Proof.
  destruct c; cbn [exec]; rewrite isErr_returning; unfold returning;
    cbn [snd];
    eauto using addUser_Err, updateUser_Err, removeUser_Err, addOutcome_Err,
      updateOutcome_Err, removeOutcome_Err, addCourse_Err, removeCourse_Err.
  intros _. by rewrite updateCourse_guards.
Qed.


(** X16: after an add call that returned a record, an add call to the same
    registry whose payload has the same pseudo (for users) or title (for
    outcomes and courses) up to trimming returns a message and stores
    nothing, whatever the rest of its payload. *)
Theorem add_again_is_refused (c c' : call) (st : Store) :
  isAdd c = true -> isAdd c' = true ->
  callRegistry c' = callRegistry c ->
  callUnique c' = callUnique c ->
  isErr (exec c st).1 = false ->
  isErr (exec c' (exec c st).2).1 = true
  /\ (exec c' (exec c st).2).2 = (exec c st).2.
Proof.
  intros Hc Hc' Hreg Hsame Hret.
  assert (isErr (exec c' (exec c st).2).1 = true) as Hrefused;
    [|split; [done|by apply exec_Err]].
  destruct c; try discriminate; destruct c'; try discriminate;
    cbn [exec callUnique] in *; rewrite isErr_returning in *;
    unfold returning in *; cbn [fst snd] in *; injection Hsame as Hsame.
  - destruct (addUser uuid time payload st).1 as [user|] eqn:Hadd;
      [|discriminate].
    apply addUser_Ret in Hadd as (_ & _ & -> & ->).
    unfold addUser. destruct (checkPayload payload0); simpl; [|done].
    assert (checkPseudo _ (up_pseudo payload0) = true) as ->; [|done].
    apply (scan_trim_true user_pseudo). eexists uuid, _. split.
    + simpl. apply lookup_insert_eq.
    + done.
  - destruct (addOutcome uuid time payload st).1 as [outcome|] eqn:Hadd;
      [|discriminate].
    apply addOutcome_Ret in Hadd as (_ & _ & -> & ->).
    unfold addOutcome. destruct (checkOutcomePayload payload0); simpl; [|done].
    assert (isExistingOutcomeTitle _ (op_title payload0) = true) as ->;
      [|done].
    apply (scan_trim_true outcome_title). eexists uuid, _. split.
    + simpl. apply lookup_insert_eq.
    + done.
  - destruct (addCourse uuid time payload st).1 as [course|] eqn:Hadd;
      [|discriminate].
    apply addCourse_Ret in Hadd as (_ & _ & -> & ->).
    unfold addCourse.
    assert (isExistingCourseTitle _ (cp_title payload0) = true) as ->;
      [|done].
    apply (scan_trim_true course_title). eexists uuid, _. split.
    + simpl. apply lookup_insert_eq.
    + done.
Qed.

(** X16, at Bea's registration followed by the registration of a Bob under
    Bea's pseudo with spaces around it. *)
Lemma add_again_is_refused_witness :
  let c := AddUser (Js.lit "u2") Scenario.later
             (mkUserPayload (Js.lit "Bea") (Js.lit "bea42") (Js.lit "z")) in
  let c' := AddUser (Js.lit "u3") Scenario.later
              (mkUserPayload (Js.lit "Bob") (Js.lit " bea42 ") (Js.lit "w")) in
  isErr (exec c Scenario.st).1 = false
  /\ isErr (exec c' (exec c Scenario.st).2).1 = true
  /\ (exec c' (exec c Scenario.st).2).2 = (exec c Scenario.st).2.
Proof.
  intros c c'. split; [vm_compute; reflexivity|].
  apply (add_again_is_refused c c' Scenario.st); vm_compute; reflexivity.
Defined.

(** ** remove frees the pseudo or title *)

(** The store a remove leaves when the key holds a record. *)
Lemma removeUser_stored userId st :
  is_Some (usersStorage st !! userId) ->
  (removeUser userId st).2 = setUsers (delete userId (usersStorage st)) st.
Proof.
  intros Hid. unfold removeUser, checkUserId.
  by rewrite (proj2 (containsKey_true _ _) Hid).
Qed.

Lemma removeOutcome_stored id st :
  is_Some (outcomesStorage st !! id) ->
  (removeOutcome id st).2
  = setOutcomes (delete id (outcomesStorage st)) st.
Proof.
  intros Hid. unfold removeOutcome, chetOutcomeId.
  by rewrite (proj2 (containsKey_true _ _) Hid).
Qed.

Lemma removeCourse_stored id st :
  is_Some (coursesStorage st !! id) ->
  (removeCourse id st).2 = setCourses (delete id (coursesStorage st)) st.
Proof.
  intros Hid. unfold removeCourse, checkCourseId.
  by rewrite (proj2 (containsKey_true _ _) Hid).
Qed.

Lemma uniqueOn_delete_frees {V : Type} (field : V -> str) (m : gmap str V)
    k v :
  uniqueOn field m -> m !! k = Some v ->
  forall i x, delete k m !! i = Some x ->
              Js.trim (field x) <> Js.trim (field v).
Proof.
  intros Hm Hk i x Hi Heq.
  apply lookup_delete_Some in Hi as [Hne Hi].
  destruct Hne. symmetry. by apply (Hm i k x v).
Qed.

(** X17: from the empty registries, after any sequence of calls, removing a
    stored user leaves no stored user with that user's pseudo, trimmed or
    not: [checkPseudo] answers [false] for it. *)
Theorem removeUser_frees_the_pseudo
    (calls : list call) (userId : str) (user : User) :
  let st := run calls emptyStore in
  getUser st userId = Some user ->
  checkPseudo (removeUser userId st).2 (user_pseudo user) = false.
Proof.
  intros st Huser.
  assert (uniqueness st) as (Hunique & _)
    by apply run_uniqueness, uniqueness_emptyStore.
  pose proof (removeUser_stored userId st) as Hremove.
  apply (scan_trim_false user_pseudo). rewrite Hremove by done. simpl.
  by apply uniqueOn_delete_frees.
Qed.

(** X17, at Ada's record. *)
Lemma removeUser_frees_the_pseudo_witness :
  getUser (run Scenario.history emptyStore) Scenario.u1
  = Some Scenario.adaRecord
  /\ checkPseudo (removeUser Scenario.u1 (run Scenario.history emptyStore)).2
       (user_pseudo Scenario.adaRecord) = false.
Proof.
  split; [vm_compute; reflexivity|].
  apply (removeUser_frees_the_pseudo Scenario.history Scenario.u1
           Scenario.adaRecord).
  vm_compute; reflexivity.
Defined.

(** X18: from the empty registries, after any sequence of calls, removing a
    stored outcome leaves no stored outcome with that outcome's title,
    trimmed or not: [isExistingOutcomeTitle] answers [false] for it. *)
Theorem removeOutcome_frees_the_title
    (calls : list call) (id : str) (outcome : Outcome) :
  let st := run calls emptyStore in
  getOutcome st id = Some outcome ->
  isExistingOutcomeTitle (removeOutcome id st).2 (outcome_title outcome)
  = false.
Proof.
  intros st Houtcome.
  assert (uniqueness st) as (_ & Hunique & _)
    by apply run_uniqueness, uniqueness_emptyStore.
  pose proof (removeOutcome_stored id st) as Hremove.
  apply (scan_trim_false outcome_title). rewrite Hremove by done. simpl.
  by apply uniqueOn_delete_frees.
Qed.

(** X18, at the stored outcome "Rocq". *)
Lemma removeOutcome_frees_the_title_witness :
  let rocq := mkOutcome Scenario.o1 (Js.lit "Rocq") (Some SKILL) 2000 None in
  getOutcome (run Scenario.history emptyStore) Scenario.o1 = Some rocq
  /\ isExistingOutcomeTitle
       (removeOutcome Scenario.o1 (run Scenario.history emptyStore)).2
       (outcome_title rocq) = false.
Proof.
  intros rocq. split; [vm_compute; reflexivity|].
  apply (removeOutcome_frees_the_title Scenario.history Scenario.o1 rocq).
  vm_compute; reflexivity.
Defined.

(** X19: from the empty registries, after any sequence of calls, removing a
    stored course leaves no stored course with that course's title, trimmed
    or not: [isExistingCourseTitle] answers [false] for it. *)
Theorem removeCourse_frees_the_title
    (calls : list call) (id : str) (course : Course) :
  let st := run calls emptyStore in
  getCourse st id = Some course ->
  isExistingCourseTitle (removeCourse id st).2 (course_title course) = false.
Proof.
  intros st Hcourse.
  assert (uniqueness st) as (_ & _ & Hunique)
    by apply run_uniqueness, uniqueness_emptyStore.
  pose proof (removeCourse_stored id st) as Hremove.
  apply (scan_trim_false course_title). rewrite Hremove by done. simpl.
  by apply uniqueOn_delete_frees.
Qed.

(** X19, at the stored course "Intro". *)
Lemma removeCourse_frees_the_title_witness :
  getCourse (run Scenario.history emptyStore) Scenario.c1
  = Some Scenario.introRecord
  /\ isExistingCourseTitle
       (removeCourse Scenario.c1 (run Scenario.history emptyStore)).2
       (course_title Scenario.introRecord) = false.
Proof.
  split; [vm_compute; reflexivity|].
  apply (removeCourse_frees_the_title Scenario.history Scenario.c1
           Scenario.introRecord).
  vm_compute; reflexivity.
Defined.

(** ** The lists *)

Section Values.
Context {V : Type}.
Implicit Types (m : gmap str V) (k : str) (v : V).

Lemma values_insert_fresh m k v :
  m !! k = None ->
  StableBTreeMap.values (<[k := v]> m) ≡ₚ v :: StableBTreeMap.values m.
Proof.
  intros Hk. unfold StableBTreeMap.values.
  by rewrite map_to_list_insert.
Qed.

Lemma values_delete m k v :
  m !! k = Some v ->
  StableBTreeMap.values m ≡ₚ v :: StableBTreeMap.values (delete k m).
Proof.
  intros Hk. unfold StableBTreeMap.values.
  by rewrite <- (map_to_list_delete m k v).
Qed.

Lemma values_insert_used m k v old :
  m !! k = Some old ->
  length (StableBTreeMap.values (<[k := v]> m))
  = length (StableBTreeMap.values m).
Proof.
  intros Hk. rewrite <- (insert_delete_eq m k v).
  rewrite values_insert_fresh by apply lookup_delete_eq.
  by rewrite (values_delete m k old).
Qed.

End Values.

(** What an add call returns is what is stored under the generated id. *)
Lemma add_stored c st v :
  isAdd c = true -> (exec c st).1 = Ret v ->
  lookupValue (callRegistry c) (exec c st).2 (callKey c) = Some v.
Proof.
  destruct c; try discriminate; intros _;
    cbn [exec callRegistry callKey lookupValue];
    unfold returning; cbn [fst snd]; intros Hret.
  - destruct (addUser uuid time payload st).1 as [user|] eqn:Hadd;
      [|discriminate].
    injection Hret as <-. apply addUser_Ret in Hadd as (_ & _ & _ & ->).
    unfold getUser, StableBTreeMap.get. simpl. by rewrite lookup_insert_eq.
  - destruct (addOutcome uuid time payload st).1 as [outcome|] eqn:Hadd;
      [|discriminate].
    injection Hret as <-. apply addOutcome_Ret in Hadd as (_ & _ & _ & ->).
    unfold getOutcome, StableBTreeMap.get. simpl. by rewrite lookup_insert_eq.
  - destruct (addCourse uuid time payload st).1 as [course|] eqn:Hadd;
      [|discriminate].
    injection Hret as <-. apply addCourse_Ret in Hadd as (_ & _ & _ & ->).
    unfold getCourse, StableBTreeMap.get. simpl. by rewrite lookup_insert_eq.
Qed.

(** X20: when an add call returns a record and nothing was stored under the
    generated id, the list of its registry ([getUsers], [getOutcomes] or
    [getCourses]) after the call is, up to order, the returned record and
    the list before the call. *)
Theorem add_extends_the_list (c : call) (st : Store) (v : value) :
  isAdd c = true ->
  lookupValue (callRegistry c) st (callKey c) = None ->
  (exec c st).1 = Ret v ->
  listValues (callRegistry c) (exec c st).2
  ≡ₚ v :: listValues (callRegistry c) st.
Proof.
  destruct c; try discriminate; intros _;
    cbn [exec callRegistry callKey lookupValue listValues];
    unfold returning; cbn [fst snd]; intros Hfresh Hret;
    apply fmap_None in Hfresh.
  - destruct (addUser uuid time payload st).1 as [user|] eqn:Hadd;
      [|discriminate].
    injection Hret as <-. apply addUser_Ret in Hadd as (_ & _ & _ & ->).
    unfold getUsers. simpl. by rewrite values_insert_fresh.
  - destruct (addOutcome uuid time payload st).1 as [outcome|] eqn:Hadd;
      [|discriminate].
    injection Hret as <-. apply addOutcome_Ret in Hadd as (_ & _ & _ & ->).
    unfold getOutcomes. simpl. by rewrite values_insert_fresh.
  - destruct (addCourse uuid time payload st).1 as [course|] eqn:Hadd;
      [|discriminate].
    injection Hret as <-. apply addCourse_Ret in Hadd as (_ & _ & _ & ->).
    unfold getCourses. simpl. by rewrite values_insert_fresh.
Qed.

(** X20, at the registration of Bea. *)
Lemma add_extends_the_list_witness :
  let c := AddUser (Js.lit "u2") Scenario.later
             (mkUserPayload (Js.lit "Bea") (Js.lit "bea42") (Js.lit "z")) in
  let bea := VUser (mkUser (Js.lit "u2") (Js.lit "Bea") (Js.lit "bea42")
                      (Js.lit "z") 4000 None) in
  (exec c Scenario.st).1 = Ret bea
  /\ listValues Users (exec c Scenario.st).2
     ≡ₚ bea :: listValues Users Scenario.st.
Proof.
  intros c bea. split; [vm_compute; reflexivity|].
  apply (add_extends_the_list c Scenario.st bea); vm_compute; reflexivity.
Defined.

(** X21: an add call does not look at what is stored under the generated
    id: when it returns a record and a record was stored under that id, the
    list of its registry is as long after the call as before (the new record
    has taken the place of the old one). *)
Theorem add_on_used_id_replaces (c : call) (st : Store) (v old : value) :
  isAdd c = true ->
  lookupValue (callRegistry c) st (callKey c) = Some old ->
  (exec c st).1 = Ret v ->
  length (listValues (callRegistry c) (exec c st).2)
  = length (listValues (callRegistry c) st)
  /\ lookupValue (callRegistry c) (exec c st).2 (callKey c) = Some v.
Proof.
  intros Hc Hold Hret. split; [|by apply add_stored].
  revert Hc Hold Hret.
  destruct c; try discriminate; intros _;
    cbn [exec callRegistry callKey lookupValue listValues];
    unfold returning; cbn [fst snd]; intros Hused Hret;
    apply fmap_Some in Hused as (prior & Hprior & _);
    rewrite !length_fmap.
  - destruct (addUser uuid time payload st).1 as [user|] eqn:Hadd;
      [|discriminate].
    apply addUser_Ret in Hadd as (_ & _ & _ & ->).
    unfold getUsers. simpl. by apply (values_insert_used _ _ _ prior).
  - destruct (addOutcome uuid time payload st).1 as [outcome|] eqn:Hadd;
      [|discriminate].
    apply addOutcome_Ret in Hadd as (_ & _ & _ & ->).
    unfold getOutcomes. simpl. by apply (values_insert_used _ _ _ prior).
  - destruct (addCourse uuid time payload st).1 as [course|] eqn:Hadd;
      [|discriminate].
    apply addCourse_Ret in Hadd as (_ & _ & _ & ->).
    unfold getCourses. simpl. by apply (values_insert_used _ _ _ prior).
Qed.

(** X21, at an outcome "Lean" created under the id of the stored outcome
    "Rocq". *)
Lemma add_on_used_id_replaces_witness :
  let c := AddOutcome Scenario.o1 Scenario.later
             (mkOutcomePayload (Js.lit "Lean") (Some SKILL)) in
  let lean := VOutcome (mkOutcome Scenario.o1 (Js.lit "Lean") (Some SKILL)
                          4000 None) in
  let rocq := VOutcome (mkOutcome Scenario.o1 (Js.lit "Rocq") (Some SKILL)
                          2000 None) in
  lookupValue Outcomes Scenario.st Scenario.o1 = Some rocq
  /\ (exec c Scenario.st).1 = Ret lean
  /\ length (listValues Outcomes (exec c Scenario.st).2)
     = length (listValues Outcomes Scenario.st)
  /\ lookupValue Outcomes (exec c Scenario.st).2 Scenario.o1 = Some lean.
Proof.
  intros c lean rocq. split; [vm_compute; reflexivity|].
  split; [vm_compute; reflexivity|].
  apply (add_on_used_id_replaces c Scenario.st lean rocq);
    vm_compute; reflexivity.
Defined.

(** X22: a remove call on the key of a stored record takes exactly that
    record out of the list of its registry: the list before the call is, up
    to order, the record and the list after the call. *)
Theorem remove_shortens_the_list (c : call) (st : Store) (v : value) :
  isRemove c = true ->
  lookupValue (callRegistry c) st (callKey c) = Some v ->
  listValues (callRegistry c) st
  ≡ₚ v :: listValues (callRegistry c) (exec c st).2.
Proof.
  destruct c; try discriminate; intros _;
    cbn [exec callRegistry callKey lookupValue listValues];
    unfold returning; cbn [fst snd]; intros Hstored;
    apply fmap_Some in Hstored as (prior & Hprior & ->).
  - rewrite removeUser_stored by (unfold getUser in Hprior; eauto).
    unfold getUsers. simpl.
    by rewrite (values_delete (usersStorage st) userId prior).
  - rewrite removeOutcome_stored by (unfold getOutcome in Hprior; eauto).
    unfold getOutcomes. simpl.
    by rewrite (values_delete (outcomesStorage st) id prior).
  - rewrite removeCourse_stored by (unfold getCourse in Hprior; eauto).
    unfold getCourses. simpl.
    by rewrite (values_delete (coursesStorage st) id prior).
Qed.

(** X22, at the removal of the stored course. *)
Lemma remove_shortens_the_list_witness :
  let c := RemoveCourse Scenario.c1 in
  lookupValue Courses Scenario.st Scenario.c1
  = Some (VCourse Scenario.introRecord)
  /\ listValues Courses Scenario.st
     ≡ₚ VCourse Scenario.introRecord
        :: listValues Courses (exec c Scenario.st).2.
Proof.
  intros c. split; [vm_compute; reflexivity|].
  apply (remove_shortens_the_list c Scenario.st
           (VCourse Scenario.introRecord)).
  - vm_compute; reflexivity.
  - vm_compute; reflexivity.
Defined.

Lemma values_insert_replace {V : Type} (m : gmap str V) k v old :
  m !! k = Some old ->
  old :: StableBTreeMap.values (<[k := v]> m)
  ≡ₚ v :: StableBTreeMap.values m.
Proof.
  intros Hk. rewrite <- (insert_delete_eq m k v).
  rewrite values_insert_fresh by apply lookup_delete_eq.
  rewrite (values_delete m k old) by done. apply perm_swap.
Qed.

(** X23: when an update call on a stored record returns a record, the list
    of its registry after the call is the list before with the stored record
    replaced by the returned one: up to order, the stored record and the list
    after are the returned record and the list before. *)
Theorem update_replaces_in_the_list
    (c : call) (st : Store) (prior updated : value) :
  updateTarget c st = Some prior ->
  (exec c st).1 = Ret updated ->
  prior :: listValues (callRegistry c) (exec c st).2
  ≡ₚ updated :: listValues (callRegistry c) st.
Proof.
  destruct c; try discriminate;
    cbn [exec updateTarget callRegistry listValues];
    unfold returning; cbn [fst snd]; intros Hstored Hret;
    apply fmap_Some in Hstored as (stored & Hstored & ->).
  - destruct (updateUser time userId payload st).1 as [user|] eqn:Hupdate;
      [|discriminate].
    injection Hret as <-.
    apply updateUser_Ret in Hupdate as (prior & Hprior & _ & _ & _ & ->).
    assert (prior = stored) as -> by congruence.
    unfold getUsers. simpl. rewrite <- !fmap_cons.
    by rewrite values_insert_replace.
  - destruct (updateOutcome time id payload st).1 as [outcome|] eqn:Hupdate;
      [|discriminate].
    injection Hret as <-.
    apply updateOutcome_Ret in Hupdate as (prior & Hprior & _ & _ & _ & ->).
    assert (prior = stored) as -> by congruence.
    unfold getOutcomes. simpl. rewrite <- !fmap_cons.
    by rewrite values_insert_replace.
  - rewrite updateCourse_guards in Hret. discriminate.
Qed.

(** X23, at Ada's change of name, pseudo and avatar. *)
Lemma update_replaces_in_the_list_witness :
  let c := UpdateUser Scenario.later Scenario.u1 Scenario.rename in
  updateTarget c Scenario.st = Some (VUser Scenario.adaRecord)
  /\ (exec c Scenario.st).1 = Ret (VUser Scenario.adaRenamed)
  /\ VUser Scenario.adaRecord :: listValues Users (exec c Scenario.st).2
     ≡ₚ VUser Scenario.adaRenamed :: listValues Users Scenario.st.
Proof.
  intros c. split; [vm_compute; reflexivity|].
  split; [vm_compute; reflexivity|].
  apply (update_replaces_in_the_list c Scenario.st
           (VUser Scenario.adaRecord) (VUser Scenario.adaRenamed));
    vm_compute; reflexivity.
Defined.
